(** * Pump sizing engine (netlify/functions/pump.js): model and properties

    The handler of [pump.js] is embedded function by function.  A JavaScript
    number is modelled as an exact real or one of the three non-finite values
    of IEEE 754 ([Infinity], [-Infinity], [NaN]); the arithmetic follows the
    IEEE rules for those values and is exact on the finite ones.  Rounding of
    the 53-bit mantissa, overflow and underflow of finite results and the sign
    of zero lie outside the model (a zero behaves as [+0]). *)

From Stdlib Require Import Reals Lra Lia ZArith String List Bool.
Import ListNotations.
Local Open Scope R_scope.
Set Warnings "-register-all".

(** ** JavaScript numbers *)

Module JS.

Inductive number : Type :=
| Fin (r : R)
| PosInf
| NegInf
| NaN.

Definition isNaN (x : number) : bool :=
  match x with NaN => true | _ => false end.

Definition isFinite (x : number) : bool :=
  match x with Fin _ => true | _ => false end.

(** Comparison operators: every comparison with [NaN] is false. *)

Definition lt (a b : number) : bool :=
  match a, b with
  | NaN, _ | _, NaN => false
  | Fin x, Fin y => if Rlt_dec x y then true else false
  | Fin _, PosInf => true
  | Fin _, NegInf => false
  | PosInf, _ => false
  | NegInf, NegInf => false
  | NegInf, _ => true
  end.

Definition gt (a b : number) : bool := lt b a.

Definition le (a b : number) : bool :=
  match a, b with
  | NaN, _ | _, NaN => false
  | Fin x, Fin y => if Rle_dec x y then true else false
  | Fin _, PosInf => true
  | Fin _, NegInf => false
  | PosInf, PosInf => true
  | PosInf, _ => false
  | NegInf, _ => true
  end.

(** Strict equality [===] on numbers. *)
Definition seq (a b : number) : bool :=
  match a, b with
  | Fin x, Fin y => if Req_dec_T x y then true else false
  | PosInf, PosInf => true
  | NegInf, NegInf => true
  | _, _ => false
  end.

(** Truthiness of a number, and [a || b] on numbers. *)
Definition truthy (a : number) : bool :=
  match a with
  | NaN => false
  | Fin x => if Req_dec_T x 0 then false else true
  | _ => true
  end.

Definition or (a b : number) : number := if truthy a then a else b.

(** Arithmetic. *)

Definition neg (a : number) : number :=
  match a with
  | Fin x => Fin (- x)
  | PosInf => NegInf
  | NegInf => PosInf
  | NaN => NaN
  end.

Definition add (a b : number) : number :=
  match a, b with
  | NaN, _ | _, NaN => NaN
  | Fin x, Fin y => Fin (x + y)
  | PosInf, NegInf | NegInf, PosInf => NaN
  | PosInf, _ | _, PosInf => PosInf
  | NegInf, _ | _, NegInf => NegInf
  end.

Definition sub (a b : number) : number := add a (neg b).

(** [signed_inf r] is the infinity with the sign of [r]; a zero factor of an
    infinity gives [NaN]. *)
Definition signed_inf (r : R) : number :=
  if Rlt_dec 0 r then PosInf else if Rlt_dec r 0 then NegInf else NaN.

Definition mul (a b : number) : number :=
  match a, b with
  | NaN, _ | _, NaN => NaN
  | Fin x, Fin y => Fin (x * y)
  | Fin x, PosInf | PosInf, Fin x => signed_inf x
  | Fin x, NegInf | NegInf, Fin x => signed_inf (- x)
  | PosInf, PosInf | NegInf, NegInf => PosInf
  | PosInf, NegInf | NegInf, PosInf => NegInf
  end.

Definition div (a b : number) : number :=
  match a, b with
  | NaN, _ | _, NaN => NaN
  | Fin x, Fin y => if Req_dec_T y 0 then signed_inf x else Fin (x / y)
  | Fin _, _ => Fin 0
  | PosInf, Fin y => if Rlt_dec y 0 then NegInf else PosInf
  | NegInf, Fin y => if Rlt_dec y 0 then PosInf else NegInf
  | _, _ => NaN
  end.

(** [Math.max] and [Math.min]: [NaN] when an argument is [NaN]. *)
Definition Math_max (a b : number) : number :=
  match a, b with
  | NaN, _ | _, NaN => NaN
  | _, _ => if lt a b then b else a
  end.

Definition Math_min (a b : number) : number :=
  match a, b with
  | NaN, _ | _, NaN => NaN
  | _, _ => if lt b a then b else a
  end.

Definition Math_PI : number := Fin PI.

Definition Math_sqrt (a : number) : number :=
  match a with
  | Fin x => if Rlt_dec x 0 then NaN else Fin (sqrt x)
  | PosInf => PosInf
  | _ => NaN
  end.

Definition Math_exp (a : number) : number :=
  match a with
  | Fin x => Fin (exp x)
  | PosInf => PosInf
  | NegInf => Fin 0
  | NaN => NaN
  end.

Definition Math_log10 (a : number) : number :=
  match a with
  | Fin x =>
      if Rlt_dec x 0 then NaN
      else if Req_dec_T x 0 then NegInf
      else Fin (ln x / ln 10)
  | PosInf => PosInf
  | _ => NaN
  end.

(** [Math.pow], with the case table of ECMAScript's Number::exponentiate. *)

Definition is_integer (y : R) : bool :=
  if Req_dec_T (IZR (Int_part y)) y then true else false.

Definition is_odd_integer (y : R) : bool :=
  is_integer y && Z.odd (Int_part y).

Definition Math_pow (base exponent : number) : number :=
  match exponent with
  | NaN => NaN
  | Fin e =>
      if Req_dec_T e 0 then Fin 1
      else match base with
           | NaN => NaN
           | PosInf => if Rlt_dec 0 e then PosInf else Fin 0
           | NegInf =>
               if Rlt_dec 0 e
               then (if is_odd_integer e then NegInf else PosInf)
               else Fin 0
           | Fin b =>
               if Rlt_dec 0 b then Fin (Rpower b e)
               else if Req_dec_T b 0
                    then (if Rlt_dec 0 e then Fin 0 else PosInf)
                    else if is_integer e
                         then (if is_odd_integer e
                               then Fin (- Rpower (- b) e)
                               else Fin (Rpower (- b) e))
                         else NaN
           end
  | PosInf =>
      match base with
      | NaN => NaN
      | Fin b =>
          if Rlt_dec 1 (Rabs b) then PosInf
          else if Req_dec_T (Rabs b) 1 then NaN else Fin 0
      | _ => PosInf
      end
  | NegInf =>
      match base with
      | NaN => NaN
      | Fin b =>
          if Rlt_dec 1 (Rabs b) then Fin 0
          else if Req_dec_T (Rabs b) 1 then NaN else PosInf
      | _ => Fin 0
      end
  end.

(** [+x.toFixed(d)]: below 1e21 in magnitude the nearest multiple of
    [10^-d], a tie going away from zero; otherwise the number itself, and a
    non-finite number is printed and read back unchanged. *)
Definition round_half_up (y : R) : R := IZR (Int_part (y + / 2)).

Definition toFixed (d : nat) (a : number) : number :=
  match a with
  | Fin x =>
      if Rle_dec 1e21 (Rabs x) then Fin x
      else if Rlt_dec x 0
           then Fin (- (round_half_up (- x * 10 ^ d) / 10 ^ d))
           else Fin (round_half_up (x * 10 ^ d) / 10 ^ d)
  | _ => a
  end.

(** JSON values, as [JSON.parse] builds them (the members of an object have
    distinct keys), and the values a property read can give. *)
Inductive json : Type :=
| JNull
| JBool (b : bool)
| JNum (n : number)
| JStr (s : string)
| JArr (items : list json)
| JObj (fields : list (string * json)).

Inductive value : Type :=
| Undefined
| Val (j : json).

Fixpoint assoc (k : string) (fields : list (string * json)) : value :=
  match fields with
  | [] => Undefined
  | (k', v) :: rest => if String.eqb k k' then Val v else assoc k rest
  end.

(** Reading a property of a non-null JSON value: an object gives its own
    property, the other values have none of the names read here. *)
Definition get (o : json) (k : string) : value :=
  match o with
  | JObj fields => assoc k fields
  | _ => Undefined
  end.

Definition typeof (v : value) : string :=
  match v with
  | Undefined => "undefined"
  | Val JNull => "object"
  | Val (JBool _) => "boolean"
  | Val (JNum _) => "number"
  | Val (JStr _) => "string"
  | Val (JArr _) => "object"
  | Val (JObj _) => "object"
  end.

(** [Number.isNaN] and [Number.isFinite] are false on every non-number. *)
Definition Number_isNaN (v : value) : bool :=
  match v with Val (JNum n) => isNaN n | _ => false end.

Definition Number_isFinite (v : value) : bool :=
  match v with Val (JNum n) => isFinite n | _ => false end.

(** The number held by a value whose [typeof] is ["number"]. *)
Definition num_of (v : value) : number :=
  match v with Val (JNum n) => n | _ => NaN end.

End JS.

(** Numeric literals of the source are real constants read as finite
    numbers; the operators of the source are written as in the source. *)
Coercion JS.Fin : R >-> JS.number.

Declare Scope js_scope.
Delimit Scope js_scope with js.
Bind Scope js_scope with JS.number.
Infix "+" := JS.add : js_scope.
Infix "-" := JS.sub : js_scope.
Infix "*" := JS.mul : js_scope.
Infix "/" := JS.div : js_scope.
Infix ">" := JS.gt : js_scope.
Infix "<" := JS.lt : js_scope.
Infix "<=" := JS.le : js_scope.
Infix "===" := JS.seq (at level 70) : js_scope.
Infix "||" := JS.or : js_scope.

(** ** The pump sizing function *)

Module Pump.
Import JS.
Local Open Scope string_scope.

Definition headers : list (string * string) :=
  [ ("Content-Type", "application/json");
    ("Access-Control-Allow-Origin", "*");
    ("Access-Control-Allow-Headers", "Content-Type, Authorization");
    ("Access-Control-Allow-Methods", "POST, OPTIONS") ].

Record Coefficients : Type := mkCoefficients {
  a : number; b : number; c : number; d : number; e : number; f : number
}.

Record Warning : Type := mkWarning { text : string; critical : bool }.

Record PerformanceData : Type := mkPerformanceData {
  flowPoints : list number;
  headPoints : list number;
  efficiencyPoints : list number;
  npshPoints : list number;
  powerPoints : list number;
  flowPercentages : list number
}.

Record NewPumpPerformance : Type := mkNewPumpPerformance {
  np_flow : number;
  np_head : number;
  np_ns : number;
  np_impdia : number;
  np_npsh : number;
  np_speed : number;
  np_efficiency : number;
  np_hydpower : number
}.

Record Result : Type := mkResult {
  efficiency : number;
  uns : number;
  ns : number;
  unss : number;
  nss : number;
  phi : number;
  angvel : number;
  tipspeed : number;
  impdia : number;
  headstage : number;
  hydpower : number;
  reynolds : number;
  cq : number;
  ch : number;
  ce : number;
  nstatus : string;
  statusText : string;
  warnings : list Warning;
  performanceData : PerformanceData;
  newPumpPerformance : option NewPumpPerformance
}.

(** The body of a response before [JSON.stringify]; the [details] and
    [timestamp] members of the 500 body are left out. *)
Inductive Body : Type :=
| EmptyBody
| ErrorBody (error : string)
| ResultBody (result : Result).

Record Response : Type := mkResponse {
  statusCode : Z;
  resp_headers : list (string * string);
  body : Body
}.

(** The request: its method and the outcome of
    [JSON.parse(event.body || "{}")], which throws on a malformed body. *)
Inductive Parsed : Type :=
| SyntaxError
| Payload (payload : json).

Record Event : Type := mkEvent { httpMethod : string; parsed : Parsed }.

(** Array helpers: [arr.map((x, i) => ...)] and the read [arr[i]], which is
    [undefined], hence [NaN] in arithmetic, out of range. *)
Fixpoint mapi_from {A B : Type} (i : nat) (g : A -> nat -> B) (l : list A)
  : list B :=
  match l with
  | [] => []
  | x :: rest => g x i :: mapi_from (S i) g rest
  end.

Definition mapi {A B : Type} (g : A -> nat -> B) (l : list A) : list B :=
  mapi_from 0 g l.

Definition at_index (l : list number) (i : nat) : number := nth i l NaN.

Record ViscousCorrection : Type := mkViscous {
  CQ : number; CH : number; CE : number
}.

Definition calculateViscousCorrection (Re : number) : ViscousCorrection :=
  let cq_a : number := 0.151 in
  let cq_b : number := 398.3 in
  let cq_c : number := 1.012 in
  let cq_d : number := 0.999 in
  let ch_a : number := 1.004 in
  let ch_b : number := 1.391 in
  let ch_c : number := 0.394 in
  let ch_d : number := 0.233 in
  let ce_a : number := 1.016 in
  let ce_b : number := 2.848 in
  let ce_c : number := 0.369 in
  let ce_d : number := 0.204 in
  let Ch := (ch_a - ch_b * Math_exp (neg ch_c * Math_pow Re ch_d))%js in
  let Ce := (ce_a - ce_b * Math_exp (neg ce_c * Math_pow Re ce_d))%js in
  let Cq : number := 1.0 in
  mkViscous Cq Ch Ce.

Definition generateWarnings (Ns U2 NPSHA Nss : number) : list Warning :=
  let warnings := [] in
  let warnings :=
    if (Ns < 20)%js
    then (warnings
          ++ [mkWarning "Ns is too low!"
                        true])%list
    else if (Ns > 250)%js
         then (warnings
          ++ [mkWarning "Ns is too high - cannot build this pump"
                        true])%list
         else warnings in
  let warnings :=
    if (U2 > 55)%js
    then (warnings
          ++ [mkWarning "Tip speed too high for dirty service"
                        true])%list
    else warnings in
  let warnings :=
    if (NPSHA > 10)%js
    then (warnings
          ++ [mkWarning "You have more NPSHA than needed"
                        false])%list
    else warnings in
  let warnings :=
    if (Nss > 213)%js
    then (warnings
          ++ [mkWarning "Suction specific speed (Nss) is too high"
                        true])%list
    else if (Nss < 50)%js
         then (warnings
          ++ [mkWarning "Suction specific speed (Nss) is very low"
                        false])%list
         else warnings in
  warnings.

Definition lagrangianInterpolation (x : number) (coefficients : Coefficients)
  : number :=
  (a coefficients + b coefficients * x
   + c coefficients * Math_pow x 2
   + d coefficients * Math_pow x 3
   + e coefficients * Math_pow x 4
   + f coefficients * Math_pow x 5)%js.

(** Curve coefficients: one table per curve, keyed by the Ns status. *)
Definition co (a b c d e f : R) : Coefficients :=
  mkCoefficients a b c d e f.

Definition curve_head : list (string * Coefficients) :=
  [
    ("Ns1", co 120.8 (-0.21384782) 0.010905096
            (-0.00021595602) 1.3648307e-06 (-2.8993229e-09));
    ("Ns2", co 142 (-0.223337) (-0.0055263614)
            0.00018385812 (-2.3572357e-06) 8.7462759e-09);
    ("Ns3", co 160 (-0.40244256) (-0.0057075647)
            0.00014007848 (-1.5704207e-06) 5.4283494e-09);
    ("Ns4", co 175 (-0.56557259) (-0.0068800616)
            0.00019610839 (-2.3296197e-06) 8.7211455e-09);
    ("Ns5", co 185 (-1.4234848) 0.015568182
            0.00015742424 (-4.6181818e-06) 2.0606061e-08);
    ("Ns6", co 225 (-1.2501499) (-0.068654179)
            0.0024996503 (-2.7729337e-05) 9.5984016e-08);
    ("Ns7", co 380 (-4.3295704) (-0.11964691)
            0.0044487801 (-4.5967011e-05) 1.4973471e-07) ].

Definition curve_efficiency : list (string * Coefficients) :=
  [
    ("Ns1", co 0 2.4445788 (-0.014159341)
            (-0.00012353846) 1.869011e-06 (-6.6227106e-09));
    ("Ns2", co 0 2.2298868 (-0.010668343)
            (-9.6486402e-05) 1.1941303e-06 (-3.9231879e-09));
    ("Ns3", co 0 2.5249317 (-0.032144311)
            0.00039017405 (-3.1181796e-06) 9.0593851e-09);
    ("Ns4", co 0 2.2583217 (-0.023349029)
            0.00024363947 (-1.8396892e-06) 4.7987568e-09);
    ("Ns5", co 0 2.4710846 (-0.032865937)
            0.00046168625 (-4.0147e-06) 1.2133467e-08);
    ("Ns6", co 0 1.7089419 (-0.0089007132)
            6.4419969e-05 (-4.1622822e-07) (-4.6842047e-10));
    ("Ns7", co 0 1.4879138 (-0.0017261461)
            (-0.00010420124) 1.4956333e-06 (-7.6891997e-09)) ].

Definition curve_npsh : list (string * Coefficients) :=
  [
    ("Ns1", co 48 0.23681818 (-0.014001515)
            0.00039790909 (-3.9684848e-06) 1.6727273e-08);
    ("Ns2", co 72 0.061821512 (-0.015774015)
            0.00034247242 (-2.9996848e-06) 1.3705406e-08);
    ("Ns3", co 98 (-0.32168731) (-0.034086057)
            0.00083099627 (-7.1443383e-06) 2.5846687e-08);
    ("Ns4", co 120 (-0.83951382) (-0.011862737)
            0.00035402331 (-3.2840759e-06) 1.5696304e-08);
    ("Ns5", co 186 (-0.72372627) (-0.050911699)
            0.0011401943 (-1.1171744e-05) 4.7246975e-08);
    ("Ns6", co 403 (-3.4442574) (-0.063122994)
            0.0019938438 (-2.4935358e-05) 1.1723477e-07);
    ("Ns7", co 1000 (-6.9291126) (-0.19079618)
            0.0035209596 (-3.6734776e-05) 1.8533911e-07) ].

(** [table[key]]: [None] stands for [undefined]. *)
Fixpoint lookup (key : string) (table : list (string * Coefficients))
  : option Coefficients :=
  match table with
  | [] => None
  | (k, v) :: rest => if String.eqb key k then Some v else lookup key rest
  end.

Definition power_divisor (efficiencyPoint : number) : number :=
  (367.63 * (efficiencyPoint / 100 || 0.01))%js.

(** The body of [generatePerformanceData] once the three coefficient rows
    are read. *)
Definition performance_curves (Q TDHm Eff NPSHA SG : number)
    (headCoeffs efficiencyCoeffs npshCoeffs : Coefficients)
  : PerformanceData :=
  let flowPercentages : list number :=
    [Fin 0; Fin 25; Fin 50; Fin 75; Fin 100; Fin 130] in
  let flowPoints := map (fun p => (p * Q / 100)%js) flowPercentages in
  let headPoints :=
    mapi (fun (flow : number) index =>
            let qPercent := at_index flowPercentages index in
            (lagrangianInterpolation qPercent headCoeffs * (TDHm / 100))%js)
         flowPoints in
  let efficiencyPoints :=
    mapi (fun (flow : number) index =>
            let qPercent := at_index flowPercentages index in
            let eff :=
              (lagrangianInterpolation qPercent efficiencyCoeffs * Eff)%js in
            Math_max 0 (Math_min 100 eff))
         flowPoints in
  let npshPoints :=
    mapi (fun (flow : number) index =>
            let qPercent := at_index flowPercentages index in
            let npsh :=
              (lagrangianInterpolation qPercent npshCoeffs
               * (NPSHA / 100))%js in
            Math_max 0 npsh)
         flowPoints in
  let powerPoints :=
    mapi (fun (flow : number) i =>
            if (flow === 0)%js
            then
              let powerAt20 :=
                ((at_index flowPoints 1 * at_index headPoints 1 * SG)
                 / power_divisor (at_index efficiencyPoints 1))%js in
              (0.9 * powerAt20)%js
            else
              ((flow * at_index headPoints i * SG)
               / power_divisor (at_index efficiencyPoints i))%js)
         flowPoints in
  mkPerformanceData flowPoints headPoints efficiencyPoints npshPoints
                    powerPoints flowPercentages.

(** [generatePerformanceData]: reading a member of [undefined] throws, which
    is the result [None]. *)
Definition generatePerformanceData (Q TDHm Eff NPSHA : number)
    (Nstatus : string) (SG : number) : option PerformanceData :=
  match lookup Nstatus curve_head,
        lookup Nstatus curve_efficiency,
        lookup Nstatus curve_npsh with
  | Some headCoeffs, Some efficiencyCoeffs, Some npshCoeffs =>
      Some (performance_curves Q TDHm Eff NPSHA SG
                               headCoeffs efficiencyCoeffs npshCoeffs)
  | _, _, _ => None
  end.

Definition newEfficiencyPercent (Ns Q originalEff : number) : number :=
  let newEfficiencyPercent :=
    if (Q > 20)%js && (Q < 61)%js && (Ns < 20)%js
    then (originalEff * 100 - 9.89)%js
    else if (Ns < 18)%js && (Q <= 20)%js
         then
           let newEfficiency :=
             (neg 8.84553e-3 + 7.9485e-2 * Ns
              - 4.0913e-3 * Math_pow Ns 2
              + 1.08499e-4 * Math_pow Ns 3
              - 1.40755e-6 * Math_pow Ns 4
              + 5.4971e-9 * Math_pow Ns 5
              + 4.07879e-11 * Math_pow Ns 6
              - 2.66217e-13 * Math_pow Ns 7)%js in
           (newEfficiency * 100)%js
         else (originalEff * 100 - 9.89)%js in
  Math_max 0 (Math_min 100 newEfficiencyPercent).

Definition calculateNewPumpPerformance
    (Ns Q TDHm ImpDia NPSHA N SG originalEff : number)
  : NewPumpPerformance :=
  let newEfficiencyPercent := newEfficiencyPercent Ns Q originalEff in
  let newHydPower :=
    ((Q * TDHm * SG) / (367.63 * (newEfficiencyPercent / 100)))%js in
  mkNewPumpPerformance
    (toFixed 2 Q) (toFixed 2 TDHm) (toFixed 2 Ns) (toFixed 2 ImpDia)
    (toFixed 2 NPSHA) (toFixed 0 N) (toFixed 2 newEfficiencyPercent)
    (toFixed 2 newHydPower).

(** The Ns status and its text. *)
Definition Ns_status (Ns : number) : string * string :=
  if (Ns > 175)%js then ("Ns7", "Very High Ns")
  else if (Ns > 100)%js then ("Ns6", "High Ns")
  else if (Ns > 80)%js then ("Ns5", "Medium-High Ns")
  else if (Ns > 60)%js then ("Ns4", "Medium Ns")
  else if (Ns > 40)%js then ("Ns3", "Medium-Low Ns")
  else if (Ns > 20)%js then ("Ns2", "Low Ns")
  else ("Ns1", "Very Low Ns").

(** The intermediate quantities of the handler, in the order of the source. *)
Definition HeadStage (TDHm NumImpellers : number) : number :=
  (TDHm / NumImpellers)%js.

Definition AngVel (N : number) : number := ((Math_PI / 30) * N)%js.

Definition Ns_of (N Q HeadStage : number) : number :=
  (N * Math_pow (Q / 3600) 0.5 / Math_pow HeadStage 0.75)%js.

Definition Uns_of (Ns : number) : number := (Ns / 52.919)%js.

Definition Nss_of (N Q SucType NPSHA : number) : number :=
  (N * Math_pow ((Q / SucType) / 3600) 0.5 / Math_pow NPSHA 0.75)%js.

Definition Phi_of (Uns : number) : number :=
  if (Uns > 1)%js
  then (0.4 / Math_pow Uns 0.5)%js
  else (0.4 / Math_pow Uns 0.25)%js.

Definition Eff_of (N Q Ns NumImpellers : number) : number :=
  let Qus := (Q * 4.402867)%js in
  let Nus := (Ns * 51.66)%js in
  let Eff :=
    (0.94 - (0.08955 * Math_pow (Qus / N) (-0.2133))
     - (0.29 * Math_pow (Math_log10 (2286 / Nus)) 2))%js in
  (Eff - 0.005 * (NumImpellers - 1))%js.

Definition kW_of (Q TDHm SG Eff : number) : number :=
  ((Q * TDHm * SG) / (367.63 * Eff))%js.

Definition Re_of (Q SucType HeadStage Viscosity : number) : number :=
  (Math_pow ((Q / SucType) / 3600) 0.5 * Math_pow (9.81 * HeadStage) 0.25
   / (Viscosity * 1e-6))%js.

Definition alternate_trigger (Q Ns : number) : bool :=
  ((Q > 20)%js && (Q < 61)%js && (Ns < 20)%js)
  || ((Ns < 18)%js && (Q <= 20)%js).

(** The formulas of the handler on the eight validated numbers; [None] is an
    exception thrown on the way. *)
Definition sizing (N Q TDHm NPSHA SucType SG NumImpellers Viscosity : number)
  : option Result :=
  let HeadStage := HeadStage TDHm NumImpellers in
  let AngVel := AngVel N in
  let Ns := Ns_of N Q HeadStage in
  let Uns := Uns_of Ns in
  let Nss := Nss_of N Q SucType NPSHA in
  let UNss := (Nss / 52.919)%js in
  let Phi := Phi_of Uns in
  let r2 := ((1 / AngVel) * Math_sqrt (9.81 * HeadStage / Phi))%js in
  let ImpDia := (r2 * 2 * 1000)%js in
  let U2 := (AngVel * (ImpDia / 2 / 1000))%js in
  let Eff := Eff_of N Q Ns NumImpellers in
  let kW := kW_of Q TDHm SG Eff in
  let Re := Re_of Q SucType HeadStage Viscosity in
  let vc := calculateViscousCorrection Re in
  let '(Nstatus, statusText) := Ns_status Ns in
  let warnings := generateWarnings Ns U2 NPSHA Nss in
  match generatePerformanceData Q TDHm Eff NPSHA Nstatus SG with
  | None => None
  | Some performanceData =>
      let newPumpPerformance :=
        if alternate_trigger Q Ns
        then Some (calculateNewPumpPerformance Ns Q TDHm ImpDia NPSHA N SG Eff)
        else None in
      Some (mkResult
              (toFixed 2 (Eff * 100)%js)
              (toFixed 4 Uns)
              (toFixed 2 Ns)
              (toFixed 4 UNss)
              (toFixed 2 Nss)
              (toFixed 4 Phi)
              (toFixed 2 AngVel)
              (toFixed 2 U2)
              (toFixed 2 ImpDia)
              (toFixed 1 HeadStage)
              (toFixed 2 kW)
              (toFixed 2 Re)
              (toFixed 2 (CQ vc))
              (toFixed 2 (CH vc))
              (toFixed 2 (CE vc))
              Nstatus statusText warnings performanceData newPumpPerformance)
  end.

(** The validation loop over [Object.entries(numbers)]: the key of the first
    entry that is not a finite number. *)
Definition invalid (v : value) : bool :=
  negb (String.eqb (typeof v) "number")
  || Number_isNaN v || negb (Number_isFinite v).

Fixpoint first_invalid (entries : list (string * value)) : option string :=
  match entries with
  | [] => None
  | (k, v) :: rest => if invalid v then Some k else first_invalid rest
  end.

Definition numbers (payload : json) : list (string * value) :=
  [ ("N", get payload "n");
    ("Q", get payload "q");
    ("TDHm", get payload "tdhm");
    ("NPSHA", get payload "npsha");
    ("SucType", get payload "suctype");
    ("SG", get payload "sg");
    ("NumImpellers", get payload "num_impellers");
    ("Viscosity", get payload "viscosity") ].

Definition server_error : Response :=
  mkResponse 500 headers (ErrorBody "Server error during pump calculation").

Definition invalid_message (k : string) : string :=
  ("Invalid or missing number for '" ++ k ++ "'").

Definition handler (event : Event) : Response :=
  if String.eqb (httpMethod event) "OPTIONS"
  then mkResponse 200 headers EmptyBody
  else if negb (String.eqb (httpMethod event) "POST")
  then mkResponse 405 headers (ErrorBody "Method not allowed")
  else
    match parsed event with
    | SyntaxError => server_error
    | Payload JNull => server_error
    | Payload payload =>
        match first_invalid (numbers payload) with
        | Some k => mkResponse 400 headers (ErrorBody (invalid_message k))
        | None =>
            let num k := num_of (get payload k) in
            match sizing (num "n") (num "q") (num "tdhm") (num "npsha")
                         (num "suctype") (num "sg") (num "num_impellers")
                         (num "viscosity") with
            | Some result => mkResponse 200 headers (ResultBody result)
            | None => server_error
            end
        end
    end.

End Pump.

(** ** Classification bands *)

Module Bands.
Import JS Pump.
Local Open Scope string_scope.

(** The seven bands of the specification, with the key and the text the
    handler gives each, and the range of Ns the handler maps to it. *)
Inductive Band : Type :=
| VeryLow | Low | MediumLow | Medium | MediumHigh | High | VeryHigh.

Definition band_key (b : Band) : string :=
  match b with
  | VeryLow => "Ns1" | Low => "Ns2" | MediumLow => "Ns3" | Medium => "Ns4"
  | MediumHigh => "Ns5" | High => "Ns6" | VeryHigh => "Ns7"
  end.

Definition band_text (b : Band) : string :=
  match b with
  | VeryLow => "Very Low Ns" | Low => "Low Ns" | MediumLow => "Medium-Low Ns"
  | Medium => "Medium Ns" | MediumHigh => "Medium-High Ns"
  | High => "High Ns" | VeryHigh => "Very High Ns"
  end.

Definition in_band (b : Band) (r : R) : Prop :=
  match b with
  | VeryLow => r <= 20
  | Low => 20 < r <= 40
  | MediumLow => 40 < r <= 60
  | Medium => 60 < r <= 80
  | MediumHigh => 80 < r <= 100
  | High => 100 < r <= 175
  | VeryHigh => 175 < r
  end.

(** The band that begins at a threshold and the band that ends there. *)
Definition band_from (t : R) (b : Band) : Prop :=
  match b with
  | Low => t = 20 | MediumLow => t = 40 | Medium => t = 60
  | MediumHigh => t = 80 | High => t = 100 | VeryHigh => t = 175
  | VeryLow => False
  end.

Definition band_upto (t : R) (b : Band) : Prop :=
  match b with
  | VeryLow => t = 20 | Low => t = 40 | MediumLow => t = 60
  | Medium => t = 80 | MediumHigh => t = 100 | High => t = 175
  | VeryHigh => False
  end.

Definition band_of (Ns : number) : Band :=
  if (Ns > 175)%js then VeryHigh
  else if (Ns > 100)%js then High
  else if (Ns > 80)%js then MediumHigh
  else if (Ns > 60)%js then Medium
  else if (Ns > 40)%js then MediumLow
  else if (Ns > 20)%js then Low
  else VeryLow.

End Bands.

(** ** Requests *)

Module Request.
Import JS Pump Bands.
Local Open Scope string_scope.

Definition post (payload : json) : Event := mkEvent "POST" (Payload payload).

(** A request body with exactly the eight members. *)
Definition payload_of
    (N Q TDHm NPSHA SucType SG NumImpellers Viscosity : number) : json :=
  JObj [ ("n", JNum N); ("q", JNum Q); ("tdhm", JNum TDHm);
         ("npsha", JNum NPSHA); ("suctype", JNum SucType); ("sg", JNum SG);
         ("num_impellers", JNum NumImpellers); ("viscosity", JNum Viscosity) ].

(** A member that holds a finite number. *)
Definition finite_member (payload : json) (key : string) (x : number) : Prop :=
  get payload key = Val (JNum x) /\ isFinite x = true.

Record reads (payload : json)
    (N Q TDHm NPSHA SucType SG NumImpellers Viscosity : number) : Prop := {
  reads_n : finite_member payload "n" N;
  reads_q : finite_member payload "q" Q;
  reads_tdhm : finite_member payload "tdhm" TDHm;
  reads_npsha : finite_member payload "npsha" NPSHA;
  reads_suctype : finite_member payload "suctype" SucType;
  reads_sg : finite_member payload "sg" SG;
  reads_num_impellers : finite_member payload "num_impellers" NumImpellers;
  reads_viscosity : finite_member payload "viscosity" Viscosity
}.

(** The members of the result, in terms of the handler's intermediate
    quantities. *)
Definition Ns_in (N Q TDHm NumImpellers : number) : number :=
  Ns_of N Q (HeadStage TDHm NumImpellers).

Definition Eff_in (N Q TDHm NumImpellers : number) : number :=
  Eff_of N Q (Ns_in N Q TDHm NumImpellers) NumImpellers.

Definition ImpDia_in (N Q TDHm NumImpellers : number) : number :=
  let HeadStage := HeadStage TDHm NumImpellers in
  let Phi := Phi_of (Uns_of (Ns_of N Q HeadStage)) in
  let r2 := ((1 / AngVel N) * Math_sqrt (9.81 * HeadStage / Phi))%js in
  (r2 * 2 * 1000)%js.

(** [below x bound]: the number [x] is less than the real [bound]. *)
Definition below (x : number) (bound : R) : Prop :=
  match x with
  | Fin r => r < bound
  | NegInf => True
  | _ => False
  end.

(** The trigger of the alternate estimate in the words of the
    specification, for a finite flow [q] and a computed [Ns]. *)
Definition trigger_spec (q : R) (Ns : number) : Prop :=
  (20 < q < 61 /\ below Ns 20) \/ (below Ns 18 /\ q <= 20).

(** Two results that agree on every member but [reynolds], [ch], [ce]. *)
Definition same_but_viscous (r1 r2 : Result) : Prop :=
  efficiency r1 = efficiency r2 /\
  uns r1 = uns r2 /\
  ns r1 = ns r2 /\
  unss r1 = unss r2 /\
  nss r1 = nss r2 /\
  phi r1 = phi r2 /\
  angvel r1 = angvel r2 /\
  tipspeed r1 = tipspeed r2 /\
  impdia r1 = impdia r2 /\
  headstage r1 = headstage r2 /\
  hydpower r1 = hydpower r2 /\
  cq r1 = cq r2 /\
  nstatus r1 = nstatus r2 /\
  statusText r1 = statusText r2 /\
  warnings r1 = warnings r2 /\
  performanceData r1 = performanceData r2 /\
  newPumpPerformance r1 = newPumpPerformance r2.

(** The eight required members in the order the handler checks them: the
    name the error message reports and the key read from the payload. *)
Definition fields : list (string * string) :=
  [ ("N", "n"); ("Q", "q"); ("TDHm", "tdhm"); ("NPSHA", "npsha");
    ("SucType", "suctype"); ("SG", "sg");
    ("NumImpellers", "num_impellers"); ("Viscosity", "viscosity") ].

(** A value that is present, a number, not NaN and not infinite. *)
Definition finite_number (v : value) : Prop :=
  exists r : R, v = Val (JNum (Fin r)).

End Request.

(** ** Evaluation lemmas for the number model *)

Module JSFacts.
Import JS.

Lemma lt_Fin (x y : R) : lt (Fin x) (Fin y) = true <-> x < y.
Proof.
  simpl. destruct (Rlt_dec x y); split; intros; auto; discriminate.
Qed.

Lemma lt_Fin_false (x y : R) : lt (Fin x) (Fin y) = false <-> y <= x.
Proof.
  simpl. destruct (Rlt_dec x y); split; intros; auto; try discriminate; lra.
Qed.

Lemma gt_Fin (x y : R) : gt (Fin x) (Fin y) = true <-> y < x.
Proof. unfold gt. apply lt_Fin. Qed.

Lemma gt_Fin_false (x y : R) : gt (Fin x) (Fin y) = false <-> x <= y.
Proof. unfold gt. apply lt_Fin_false. Qed.

Lemma le_Fin (x y : R) : le (Fin x) (Fin y) = true <-> x <= y.
Proof.
  simpl. destruct (Rle_dec x y); split; intros; auto; discriminate.
Qed.

Lemma le_Fin_false (x y : R) : le (Fin x) (Fin y) = false <-> y < x.
Proof.
  simpl. destruct (Rle_dec x y); split; intros; auto; try discriminate; lra.
Qed.

Lemma seq_Fin (x y : R) : seq (Fin x) (Fin y) = true <-> x = y.
Proof.
  simpl. destruct (Req_dec_T x y); split; intros; auto; discriminate.
Qed.

Lemma seq_Fin_false (x y : R) : seq (Fin x) (Fin y) = false <-> x <> y.
Proof.
  simpl. destruct (Req_dec_T x y); split; intros; auto; try discriminate.
  contradiction.
Qed.

Lemma div_Fin (x y : R) : y <> 0 -> div (Fin x) (Fin y) = Fin (x / y).
Proof.
  intros H. simpl. destruct (Req_dec_T y 0); [contradiction | reflexivity].
Qed.

Ltac case_dec :=
  repeat match goal with
         | |- context [Rlt_dec ?x ?y] => destruct (Rlt_dec x y)
         | |- context [Rle_dec ?x ?y] => destruct (Rle_dec x y)
         | |- context [Req_dec_T ?x ?y] => destruct (Req_dec_T x y)
         end.

Lemma div_zero_not_finite (a : number) : isFinite (div a (Fin 0)) = false.
Proof.
  destruct a as [x | | |]; simpl; unfold signed_inf; case_dec;
    try reflexivity; lra.
Qed.

Lemma truthy_Fin (x : R) : truthy (Fin x) = true <-> x <> 0.
Proof.
  simpl. destruct (Req_dec_T x 0); split; intros; auto;
    try discriminate; try contradiction.
Qed.

Lemma or_falsy (a b : number) : truthy a = false -> or a b = b.
Proof. unfold or. intros ->. reflexivity. Qed.

Lemma or_truthy (a b : number) : truthy a = true -> or a b = a.
Proof. unfold or. intros ->. reflexivity. Qed.

(** Powers. *)

Lemma Rpower_1_l (y : R) : Rpower 1 y = 1.
Proof. unfold Rpower. rewrite ln_1, Rmult_0_r. apply exp_0. Qed.

Lemma Math_pow_pos (b e : R) :
  0 < b -> e <> 0 -> Math_pow (Fin b) (Fin e) = Fin (Rpower b e).
Proof.
  intros Hb He. unfold Math_pow.
  destruct (Req_dec_T e 0); [contradiction |].
  destruct (Rlt_dec 0 b); [reflexivity | contradiction].
Qed.

Lemma Math_pow_half (u : R) :
  0 < u -> Math_pow (Fin u) 0.5 = Fin (sqrt u).
Proof.
  intros Hu. rewrite Math_pow_pos by lra.
  replace 0.5 with (/ 2) by lra. rewrite Rpower_sqrt by exact Hu.
  reflexivity.
Qed.

Lemma Rpower_nonzero_any (x y : R) : Rpower x y <> 0.
Proof. unfold Rpower. apply exp_neq_0. Qed.

Lemma Math_pow_zero (e : R) : 0 < e -> Math_pow (Fin 0) (Fin e) = Fin 0.
Proof.
  intros He. unfold Math_pow.
  destruct (Req_dec_T e 0); [lra |].
  destruct (Rlt_dec 0 0); [lra |].
  destruct (Req_dec_T 0 0) as [_ | H]; [| contradiction H; reflexivity].
  destruct (Rlt_dec 0 e); [reflexivity | contradiction].
Qed.

Lemma is_integer_INR (n : nat) : is_integer (INR n) = true.
Proof.
  unfold is_integer. rewrite Int_part_INR, <- INR_IZR_INZ.
  destruct (Req_dec_T (INR n) (INR n)) as [_ | H]; [reflexivity |].
  contradiction H; reflexivity.
Qed.

Lemma is_odd_integer_INR (n : nat) : is_odd_integer (INR n) = Nat.odd n.
Proof.
  unfold is_odd_integer. rewrite is_integer_INR, Int_part_INR. simpl.
  rewrite <- Nat.negb_even, <- Z.negb_even.
  f_equal. induction n as [| n IH].
  - reflexivity.
  - rewrite Nat2Z.inj_succ, Z.even_succ, Nat.even_succ.
    rewrite <- Z.negb_even, <- Nat.negb_even, IH. reflexivity.
Qed.

(** An exponent that is a positive integer literal gives the ordinary
    power, whatever the sign of the base. *)
Lemma Math_pow_nat (x : R) (n : nat) :
  (0 < n)%nat -> Math_pow (Fin x) (Fin (INR n)) = Fin (x ^ n).
Proof.
  intros Hn. assert (Hpos : 0 < INR n) by (apply lt_0_INR; exact Hn).
  unfold Math_pow.
  destruct (Req_dec_T (INR n) 0); [lra |].
  destruct (Rlt_dec 0 x) as [Hx | Hx].
  - rewrite Rpower_pow by exact Hx. reflexivity.
  - destruct (Req_dec_T x 0) as [-> | Hx0].
    + destruct (Rlt_dec 0 (INR n)); [| contradiction].
      rewrite pow_i by exact Hn. reflexivity.
    + rewrite is_integer_INR, is_odd_integer_INR.
      assert (Hneg : 0 < - x) by lra.
      rewrite Rpower_pow by exact Hneg.
      destruct (Nat.odd n) eqn:Hodd.
      * f_equal. apply Nat.odd_spec in Hodd. destruct Hodd as [m ->].
        replace (2 * m + 1)%nat with (S (2 * m)) by lia.
        rewrite <- !tech_pow_Rmult, !pow_mult. simpl. f_equal; try ring.
        replace (- x * (- x * 1)) with (x * (x * 1)) by ring. ring.
      * f_equal.
        assert (He : Nat.even n = true)
          by (rewrite <- Nat.negb_odd, Hodd; reflexivity).
        apply Nat.even_spec in He. destruct He as [m ->].
        rewrite !pow_mult. f_equal. simpl. ring.
Qed.

Lemma Math_pow_lit (x : R) (p : positive) :
  Math_pow (Fin x) (Fin (IZR (Zpos p))) = Fin (x ^ Pos.to_nat p).
Proof.
  rewrite <- positive_nat_Z, <- INR_IZR_INZ.
  apply Math_pow_nat. apply Pos2Nat.is_pos.
Qed.

Lemma Math_log10_pos (x : R) :
  0 < x -> Math_log10 (Fin x) = Fin (ln x / ln 10).
Proof.
  intros Hx. unfold Math_log10.
  destruct (Rlt_dec x 0); [lra |].
  destruct (Req_dec_T x 0); [lra | reflexivity].
Qed.

Lemma ln_10_pos : 0 < ln 10.
Proof. rewrite <- ln_1. apply ln_increasing; lra. Qed.

(** Bounds on a decimal logarithm from a comparison of integer powers. *)
Lemma log10_lower (x : R) (k m : nat) :
  0 < x -> (0 < m)%nat -> 10 ^ k <= x ^ m -> INR k / INR m <= ln x / ln 10.
Proof.
  intros Hx Hm Hle.
  assert (Hm' : 0 < INR m) by (apply lt_0_INR; exact Hm).
  pose proof ln_10_pos as H10.
  assert (Hln : INR k * ln 10 <= INR m * ln x).
  { rewrite <- !ln_pow by lra.
    destruct Hle as [Hlt | Heq].
    - left. apply ln_increasing; [apply pow_lt; lra | exact Hlt].
    - right. rewrite Heq. reflexivity. }
  apply Rmult_le_reg_r with (r := INR m * ln 10).
  - apply Rmult_lt_0_compat; assumption.
  - replace (INR k / INR m * (INR m * ln 10)) with (INR k * ln 10)
      by (field; lra).
    replace (ln x / ln 10 * (INR m * ln 10)) with (INR m * ln x)
      by (field; lra).
    exact Hln.
Qed.

Lemma log10_upper (x : R) (k m : nat) :
  0 < x -> (0 < m)%nat -> x ^ m <= 10 ^ k -> ln x / ln 10 <= INR k / INR m.
Proof.
  intros Hx Hm Hle.
  assert (Hm' : 0 < INR m) by (apply lt_0_INR; exact Hm).
  pose proof ln_10_pos as H10.
  assert (Hln : INR m * ln x <= INR k * ln 10).
  { rewrite <- !ln_pow by lra.
    destruct Hle as [Hlt | Heq].
    - left. apply ln_increasing; [apply pow_lt; lra | exact Hlt].
    - right. rewrite Heq. reflexivity. }
  apply Rmult_le_reg_r with (r := INR m * ln 10).
  - apply Rmult_lt_0_compat; assumption.
  - replace (INR k / INR m * (INR m * ln 10)) with (INR k * ln 10)
      by (field; lra).
    replace (ln x / ln 10 * (INR m * ln 10)) with (INR m * ln x)
      by (field; lra).
    exact Hln.
Qed.

(** Clamping a finite number. *)
Lemma clamp_negative (hi x : R) :
  0 < hi -> x <= 0 -> Math_max (Fin 0) (Math_min (Fin hi) (Fin x)) = Fin 0.
Proof.
  intros Hhi Hx. unfold Math_min.
  assert (H1 : lt (Fin x) (Fin hi) = true) by (apply lt_Fin; lra).
  rewrite H1. unfold Math_max.
  assert (H2 : lt (Fin 0) (Fin x) = false) by (apply lt_Fin_false; lra).
  rewrite H2. reflexivity.
Qed.

Lemma isFinite_div_Fin (x y : R) :
  y <> 0 -> isFinite (div (Fin x) (Fin y)) = true.
Proof. intros Hy. rewrite div_Fin by exact Hy. reflexivity. Qed.

Lemma isFinite_toFixed (d : nat) (x : number) :
  isFinite (toFixed d x) = isFinite x.
Proof.
  destruct x as [r | | |]; simpl; try reflexivity.
  case_dec; reflexivity.
Qed.

(** Arithmetic on finite numbers. *)
Lemma add_Fin (x y : R) : add (Fin x) (Fin y) = Fin (x + y).
Proof. reflexivity. Qed.

Lemma sub_Fin (x y : R) : sub (Fin x) (Fin y) = Fin (x - y).
Proof. reflexivity. Qed.

Lemma mul_Fin (x y : R) : mul (Fin x) (Fin y) = Fin (x * y).
Proof. reflexivity. Qed.

Lemma neg_Fin (x : R) : neg (Fin x) = Fin (- x).
Proof. reflexivity. Qed.

Lemma toFixed_zero (d : nat) : toFixed d (Fin 0) = Fin 0.
Proof.
  unfold toFixed. rewrite Rabs_R0.
  destruct (Rle_dec 1e21 0); [lra |].
  destruct (Rlt_dec 0 0); [lra |].
  unfold round_half_up.
  rewrite <- (Int_part_spec (0 * 10 ^ d + / 2) 0) by (simpl; lra).
  f_equal. unfold Rdiv. apply Rmult_0_l.
Qed.

(** [toFixed] moves a number of moderate size by at most half a unit of the
    last digit kept. *)
Lemma toFixed_near (d : nat) (x : R) :
  0 <= x < 1e21 ->
  exists y : R,
    toFixed d (Fin x) = Fin y /\
    x - / 2 / 10 ^ d < y <= x + / 2 / 10 ^ d.
Proof.
  intros [Hx0 Hx1]. unfold toFixed.
  rewrite Rabs_right by lra.
  destruct (Rle_dec 1e21 x); [lra |].
  destruct (Rlt_dec x 0); [lra |].
  eexists. split; [reflexivity |].
  unfold round_half_up.
  assert (Hp : 0 < 10 ^ d) by (apply pow_lt; lra).
  destruct (base_Int_part (x * 10 ^ d + / 2)) as [Hle Hgt].
  set (z := IZR (Int_part (x * 10 ^ d + / 2))) in *.
  split.
  - apply Rmult_lt_reg_r with (r := 10 ^ d); [exact Hp |].
    replace (z / 10 ^ d * 10 ^ d) with z by (field; lra).
    replace ((x - / 2 / 10 ^ d) * 10 ^ d) with (x * 10 ^ d - / 2)
      by (field; lra).
    lra.
  - apply Rmult_le_reg_r with (r := 10 ^ d); [exact Hp |].
    replace (z / 10 ^ d * 10 ^ d) with z by (field; lra).
    replace ((x + / 2 / 10 ^ d) * 10 ^ d) with (x * 10 ^ d + / 2)
      by (field; lra).
    lra.
Qed.

End JSFacts.

(** ** Facts about the classification *)

Module BandFacts.
Import JS JSFacts Pump Bands.
Local Open Scope string_scope.

Lemma Ns_status_band (Ns : number) :
  Ns_status Ns = (band_key (band_of Ns), band_text (band_of Ns)).
Proof.
  unfold Ns_status, band_of.
  repeat match goal with
         | |- context [if ?c then _ else _] => destruct c; [reflexivity |]
         end.
  reflexivity.
Qed.

Lemma band_key_inj (b1 b2 : Band) : band_key b1 = band_key b2 -> b1 = b2.
Proof. destruct b1, b2; simpl; intros H; try reflexivity; discriminate H. Qed.

Lemma band_of_Fin (r : R) (b : Band) : band_of (Fin r) = b <-> in_band b r.
Proof.
  unfold band_of, gt, lt. case_dec; destruct b; simpl;
    split; intros H; try reflexivity; try discriminate H; lra.
Qed.

Lemma band_key_valid (b : Band) :
  lookup (band_key b) curve_head <> None /\
  lookup (band_key b) curve_efficiency <> None /\
  lookup (band_key b) curve_npsh <> None.
Proof. destruct b; simpl; repeat split; discriminate. Qed.

Lemma generatePerformanceData_band
      (Q TDHm Eff NPSHA SG : number) (b : Band) :
  exists headCoeffs efficiencyCoeffs npshCoeffs,
    lookup (band_key b) curve_head = Some headCoeffs /\
    lookup (band_key b) curve_efficiency = Some efficiencyCoeffs /\
    lookup (band_key b) curve_npsh = Some npshCoeffs /\
    generatePerformanceData Q TDHm Eff NPSHA (band_key b) SG =
    Some (performance_curves Q TDHm Eff NPSHA SG
                             headCoeffs efficiencyCoeffs npshCoeffs).
Proof.
  unfold generatePerformanceData.
  destruct b; simpl; do 3 eexists; repeat split; reflexivity.
Qed.

End BandFacts.

(** ** Accepted requests *)

Module RequestFacts.
Import JS JSFacts Pump Bands BandFacts Request.
Local Open Scope string_scope.

Lemma reads_payload_of
    (N Q TDHm NPSHA SucType SG NumImpellers Viscosity : R) :
  reads (payload_of N Q TDHm NPSHA SucType SG NumImpellers Viscosity)
        N Q TDHm NPSHA SucType SG NumImpellers Viscosity.
Proof. split; split; reflexivity. Qed.

Lemma finite_member_valid (payload : json) (key : string) (x : number) :
  finite_member payload key x -> invalid (get payload key) = false.
Proof.
  intros [-> Hfin]. unfold invalid. simpl.
  destruct x; try discriminate Hfin. reflexivity.
Qed.

(** The result [sizing] always builds. *)
Lemma sizing_defined
    (N Q TDHm NPSHA SucType SG NumImpellers Viscosity : number) :
  exists result,
    sizing N Q TDHm NPSHA SucType SG NumImpellers Viscosity = Some result.
Proof.
  unfold sizing. rewrite Ns_status_band.
  match goal with
  | |- context [generatePerformanceData ?q ?h ?e ?n (band_key ?b) ?s] =>
      destruct (generatePerformanceData_band q h e n s b)
        as (hc & ec & nc & _ & _ & _ & ->)
  end.
  eexists. reflexivity.
Qed.

Lemma handler_accepts (payload : json)
    (N Q TDHm NPSHA SucType SG NumImpellers Viscosity : number) :
  reads payload N Q TDHm NPSHA SucType SG NumImpellers Viscosity ->
  exists result,
    sizing N Q TDHm NPSHA SucType SG NumImpellers Viscosity = Some result /\
    handler (post payload) = mkResponse 200 headers (ResultBody result).
Proof.
  intros H.
  destruct (sizing_defined N Q TDHm NPSHA SucType SG NumImpellers Viscosity)
    as [result Hres].
  exists result. split; [exact Hres |].
  unfold handler, post. simpl.
  destruct payload as [| | | | | fields];
    try (exfalso; destruct H as [[Hn _] _ _ _ _ _ _ _]; discriminate Hn).
  unfold numbers, first_invalid.
  rewrite (finite_member_valid _ _ _ (reads_n _ _ _ _ _ _ _ _ _ H)).
  rewrite (finite_member_valid _ _ _ (reads_q _ _ _ _ _ _ _ _ _ H)).
  rewrite (finite_member_valid _ _ _ (reads_tdhm _ _ _ _ _ _ _ _ _ H)).
  rewrite (finite_member_valid _ _ _ (reads_npsha _ _ _ _ _ _ _ _ _ H)).
  rewrite (finite_member_valid _ _ _ (reads_suctype _ _ _ _ _ _ _ _ _ H)).
  rewrite (finite_member_valid _ _ _ (reads_sg _ _ _ _ _ _ _ _ _ H)).
  rewrite (finite_member_valid _ _ _ (reads_num_impellers _ _ _ _ _ _ _ _ _ H)).
  rewrite (finite_member_valid _ _ _ (reads_viscosity _ _ _ _ _ _ _ _ _ H)).
  destruct H as [[-> _] [-> _] [-> _] [-> _] [-> _] [-> _] [-> _] [-> _]].
  simpl num_of. rewrite Hres. reflexivity.
Qed.

Section Members.
Variables N Q TDHm NPSHA SucType SG NumImpellers Viscosity : number.
Variable result : Result.
Hypothesis Hres :
  sizing N Q TDHm NPSHA SucType SG NumImpellers Viscosity = Some result.

Lemma sizing_unfold :
  let Ns := Ns_in N Q TDHm NumImpellers in
  let Eff := Eff_in N Q TDHm NumImpellers in
  exists headCoeffs efficiencyCoeffs npshCoeffs,
    lookup (band_key (band_of Ns)) curve_head = Some headCoeffs /\
    lookup (band_key (band_of Ns)) curve_efficiency = Some efficiencyCoeffs /\
    lookup (band_key (band_of Ns)) curve_npsh = Some npshCoeffs /\
    nstatus result = band_key (band_of Ns) /\
    statusText result = band_text (band_of Ns) /\
    phi result = toFixed 4 (Phi_of (Uns_of Ns)) /\
    performanceData result =
      performance_curves Q TDHm Eff NPSHA SG
                         headCoeffs efficiencyCoeffs npshCoeffs /\
    newPumpPerformance result =
      (if alternate_trigger Q Ns
       then Some (calculateNewPumpPerformance
                    Ns Q TDHm (ImpDia_in N Q TDHm NumImpellers)
                    NPSHA N SG Eff)
       else None).
Proof.
  intros Ns Eff. revert Hres. unfold sizing. cbv zeta. rewrite Ns_status_band.
  change (Ns_of N Q (HeadStage TDHm NumImpellers)) with Ns.
  change (Eff_of N Q Ns NumImpellers) with Eff.
  destruct (generatePerformanceData_band Q TDHm Eff NPSHA SG (band_of Ns))
    as (hc & ec & nc & Hh & He & Hn & ->).
  intros Heq. injection Heq as <-. exists hc, ec, nc.
  repeat split; try assumption; reflexivity.
Qed.

Lemma sizing_efficiency :
  efficiency result
  = toFixed 2 (Eff_in N Q TDHm NumImpellers * 100)%js.
Proof.
  revert Hres. unfold sizing. cbv zeta.
  destruct (Ns_status _) as [Nstatus statusText].
  destruct (generatePerformanceData _ _ _ _ _ _) as [pd |]; [| discriminate].
  intros Heq. injection Heq as <-. reflexivity.
Qed.

Lemma sizing_hydpower :
  hydpower result
  = toFixed 2 (kW_of Q TDHm SG (Eff_in N Q TDHm NumImpellers)).
Proof.
  revert Hres. unfold sizing. cbv zeta.
  destruct (Ns_status _) as [Nstatus statusText].
  destruct (generatePerformanceData _ _ _ _ _ _) as [pd |]; [| discriminate].
  intros Heq. injection Heq as <-. reflexivity.
Qed.
End Members.

(** At q = 3600 m3/h and one stage of 1 m the specific speed is the
    rotational speed. *)
Lemma Ns_in_unit (n : R) : Ns_in (Fin n) 3600 1 1 = Fin n.
Proof.
  unfold Ns_in, Ns_of, HeadStage.
  rewrite !div_Fin by lra.
  rewrite !Math_pow_pos by lra.
  replace (3600 / 3600) with 1 by lra.
  replace (1 / 1) with 1 by lra.
  rewrite !Rpower_1_l. simpl mul.
  rewrite div_Fin by lra. f_equal. lra.
Qed.

Lemma Ns_in_100 : Ns_in 100 3600 1 1 = Fin 100.
Proof. apply Ns_in_unit. Qed.

Lemma Ns_in_pos (n q h k : R) :
  0 < n -> 0 < q -> 0 < h -> 0 < k ->
  Ns_in (Fin n) (Fin q) (Fin h) (Fin k)
  = Fin (n * sqrt (q / 3600) / Rpower (h / k) 0.75).
Proof.
  intros Hn Hq Hh Hk. unfold Ns_in, Ns_of, HeadStage.
  assert (Hq' : 0 < q / 3600) by (apply Rdiv_lt_0_compat; lra).
  assert (Hh' : 0 < h / k) by (apply Rdiv_lt_0_compat; lra).
  rewrite !div_Fin by lra.
  rewrite Math_pow_half by exact Hq'.
  rewrite Math_pow_pos by lra.
  rewrite mul_Fin, div_Fin by apply Rpower_nonzero_any.
  reflexivity.
Qed.

Lemma Eff_of_pos (n q ns k : R) :
  0 < n -> 0 < q -> 0 < ns ->
  Eff_of (Fin n) (Fin q) (Fin ns) (Fin k)
  = Fin (0.94 - 0.08955 * Rpower (q * 4.402867 / n) (-0.2133)
         - 0.29 * (ln (2286 / (ns * 51.66)) / ln 10) ^ 2
         - 0.005 * (k - 1)).
Proof.
  intros Hn Hq Hns. unfold Eff_of. cbv zeta.
  assert (Hqus : 0 < q * 4.402867 / n)
    by (apply Rdiv_lt_0_compat; lra).
  assert (Hnus : 0 < 2286 / (ns * 51.66))
    by (apply Rdiv_lt_0_compat; lra).
  rewrite !mul_Fin. rewrite !div_Fin by lra.
  rewrite Math_pow_pos by lra.
  rewrite Math_log10_pos by exact Hnus.
  rewrite Math_pow_lit.
  rewrite !mul_Fin, !sub_Fin, mul_Fin, sub_Fin. reflexivity.
Qed.

End RequestFacts.

(** ** Classification by specific speed *)

Module Classification.
Import JS JSFacts Pump Bands BandFacts Request RequestFacts.
Local Open Scope string_scope.

(** C8: every value of Ns, finite or not, is given exactly one of the seven
    bands; on the reals the bands are the seven consecutive ranges cut at
    20, 40, 60, 80, 100 and 175, which cover the line without overlap; and
    the key of the band given is present in the head, efficiency and NPSH
    coefficient tables, so the curve generator returns its curves. *)
Theorem band_partition :
  (forall Ns : number,
      exists! b : Band, Ns_status Ns = (band_key b, band_text b)) /\
  (forall r : R, exists! b : Band, in_band b r) /\
  (forall (r : R) (b : Band),
      Ns_status (Fin r) = (band_key b, band_text b) <-> in_band b r) /\
  (forall Ns Q TDHm Eff NPSHA SG : number,
      lookup (fst (Ns_status Ns)) curve_head <> None /\
      lookup (fst (Ns_status Ns)) curve_efficiency <> None /\
      lookup (fst (Ns_status Ns)) curve_npsh <> None /\
      generatePerformanceData Q TDHm Eff NPSHA (fst (Ns_status Ns)) SG
        <> None).
Proof.
  split; [| split; [| split]].
  - intros Ns. exists (band_of Ns). split; [apply Ns_status_band |].
    intros b' Hb'. rewrite Ns_status_band in Hb'.
    apply band_key_inj. congruence.
  - intros r. exists (band_of (Fin r)).
    split; [apply band_of_Fin; reflexivity |].
    intros b' Hb'. apply band_of_Fin. exact Hb'.
  - intros r b. rewrite Ns_status_band. split; intros H.
    + apply band_of_Fin. apply band_key_inj. congruence.
    + apply band_of_Fin in H. rewrite H. reflexivity.
  - intros Ns Q TDHm Eff NPSHA SG. rewrite Ns_status_band. simpl fst.
    destruct (band_key_valid (band_of Ns)) as (Hh & He & Hn).
    repeat split; try assumption.
    destruct (generatePerformanceData_band Q TDHm Eff NPSHA SG (band_of Ns))
      as (hc & ec & nc & _ & _ & _ & ->).
    discriminate.
Qed.

(** C4, as stated, fails: at Ns = 100 exactly the handler answers
    Medium-High, the band that ends at 100, not High, the band that begins
    there. *)
Lemma threshold_100_not_high :
  exists result,
    handler (post (payload_of 100 3600 1 1 1 1 1 1))
      = mkResponse 200 headers (ResultBody result) /\
    Ns_in 100 3600 1 1 = Fin 100 /\
    band_from 100 High /\
    nstatus result = band_key MediumHigh /\
    nstatus result <> band_key High.
Proof.
  destruct (handler_accepts _ _ _ _ _ _ _ _ _
              (reads_payload_of 100 3600 1 1 1 1 1 1))
    as (result & Hres & Hh).
  exists result. split; [exact Hh |]. split; [exact Ns_in_100 |].
  split; [reflexivity |].
  destruct (sizing_unfold _ _ _ _ _ _ _ _ _ Hres)
    as (_ & _ & _ & _ & _ & _ & Hst & _).
  rewrite Ns_in_100 in Hst.
  assert (Hb : band_of (Fin 100) = MediumHigh)
    by (apply band_of_Fin; simpl; lra).
  rewrite Hb in Hst. rewrite Hst. split; [reflexivity | discriminate].
Qed.

(** C4, amended: the thresholds are exclusive at the lower end of a band and
    inclusive at its upper end.  For every accepted request whose computed Ns
    equals a threshold, the handler answers the band that ends at that
    threshold: Very Low at 20, Low at 40, Medium-Low at 60, Medium at 80,
    Medium-High at 100 and High at 175. *)
Theorem threshold_band_upto (payload : json)
    (N Q TDHm NPSHA SucType SG NumImpellers Viscosity : number)
    (t : R) (b : Band) :
  reads payload N Q TDHm NPSHA SucType SG NumImpellers Viscosity ->
  Ns_in N Q TDHm NumImpellers = Fin t ->
  band_upto t b ->
  exists result,
    handler (post payload) = mkResponse 200 headers (ResultBody result) /\
    nstatus result = band_key b /\
    statusText result = band_text b.
Proof.
  intros Hreads HNs Ht.
  destruct (handler_accepts _ _ _ _ _ _ _ _ _ Hreads) as (result & Hres & Hh).
  exists result. split; [exact Hh |].
  destruct (sizing_unfold _ _ _ _ _ _ _ _ _ Hres)
    as (_ & _ & _ & _ & _ & _ & Hst & Htx & _).
  rewrite HNs in Hst, Htx.
  assert (Hb : band_of (Fin t) = b).
  { apply band_of_Fin. destruct b; simpl in *; try contradiction; lra. }
  rewrite Hb in Hst, Htx. split; assumption.
Qed.

Lemma threshold_band_upto_witness :
  exists result,
    handler (post (payload_of 100 3600 1 1 1 1 1 1))
      = mkResponse 200 headers (ResultBody result) /\
    nstatus result = "Ns5" /\
    statusText result = "Medium-High Ns".
Proof.
  apply (threshold_band_upto _ 100 3600 1 1 1 1 1 1 100 MediumHigh).
  - apply reads_payload_of.
  - exact Ns_in_100.
  - reflexivity.
Defined.

End Classification.

(** ** Flow coefficient, alternate estimate, viscosity *)

Module Engine.
Import JS JSFacts Pump Bands BandFacts Request RequestFacts.
Local Open Scope string_scope.


(** C5: for every accepted request whose unitless specific speed is the
    finite value u, the flow coefficient reported is 0.4 / sqrt(u) when
    u > 1 strictly and 0.4 / u^0.25 when u <= 1; at u = 1 exactly the second
    form is the one used (and gives 0.4). *)
Theorem flow_coefficient_branch (payload : json)
    (N Q TDHm NPSHA SucType SG NumImpellers Viscosity : number) (u : R) :
  reads payload N Q TDHm NPSHA SucType SG NumImpellers Viscosity ->
  Uns_of (Ns_in N Q TDHm NumImpellers) = Fin u ->
  exists result,
    handler (post payload) = mkResponse 200 headers (ResultBody result) /\
    (1 < u -> phi result = toFixed 4 (Fin (0.4 / sqrt u))) /\
    (u <= 1 -> phi result = toFixed 4 (0.4 / Math_pow (Fin u) 0.25)%js) /\
    (0 < u <= 1 -> phi result = toFixed 4 (Fin (0.4 / Rpower u 0.25))) /\
    (u = 1 -> phi result = toFixed 4 (Fin 0.4)).
Proof.
  intros Hreads Hu.
  destruct (handler_accepts _ _ _ _ _ _ _ _ _ Hreads) as (result & Hres & Hh).
  exists result. split; [exact Hh |].
  destruct (sizing_unfold _ _ _ _ _ _ _ _ _ Hres)
    as (_ & _ & _ & _ & _ & _ & _ & _ & Hphi & _).
  rewrite Hu in Hphi. rewrite Hphi. unfold Phi_of.
  assert (Hlow : forall v, 0 < v <= 1 ->
            (if (Fin v > 1)%js then (0.4 / Math_pow (Fin v) 0.5)%js
             else (0.4 / Math_pow (Fin v) 0.25)%js)
            = Fin (0.4 / Rpower v 0.25)).
  { intros v Hv.
    assert (Hgt : gt (Fin v) (Fin 1) = false) by (apply gt_Fin_false; lra).
    rewrite Hgt, Math_pow_pos by lra.
    rewrite div_Fin by apply Rpower_nonzero_any. reflexivity. }
  repeat split.
  - intros H1.
    assert (Hgt : gt (Fin u) (Fin 1) = true) by (apply gt_Fin; exact H1).
    rewrite Hgt, Math_pow_half by lra.
    rewrite div_Fin; [reflexivity |].
    intros H0. apply sqrt_eq_0 in H0; lra.
  - intros H1.
    assert (Hgt : gt (Fin u) (Fin 1) = false) by (apply gt_Fin_false; exact H1).
    rewrite Hgt. reflexivity.
  - intros H1. rewrite Hlow by exact H1. reflexivity.
  - intros ->. rewrite Hlow by lra. rewrite Rpower_1_l.
    do 2 f_equal. lra.
Qed.

Lemma flow_coefficient_branch_witness :
  exists result,
    handler (post (payload_of 100 3600 1 1 1 1 1 1))
      = mkResponse 200 headers (ResultBody result) /\
    phi result = toFixed 4 (Fin (0.4 / sqrt (100 / 52.919))).
Proof.
  destruct (flow_coefficient_branch _ 100 3600 1 1 1 1 1 1 (100 / 52.919)
              (reads_payload_of 100 3600 1 1 1 1 1 1))
    as (result & Hh & Hgt & _).
  - rewrite Ns_in_100. unfold Uns_of.
    rewrite div_Fin by lra. reflexivity.
  - exists result. split; [exact Hh |]. apply Hgt. lra.
Defined.

Lemma below_lt (x : number) (bound : R) :
  lt x (Fin bound) = true <-> below x bound.
Proof.
  destruct x as [r | | |]; simpl.
  - apply lt_Fin.
  - split; [discriminate | contradiction].
  - split; auto.
  - split; [discriminate | contradiction].
Qed.

Lemma alternate_trigger_spec (q : R) (Ns : number) :
  alternate_trigger (Fin q) Ns = true <-> trigger_spec q Ns.
Proof.
  unfold alternate_trigger, trigger_spec.
  rewrite orb_true_iff, !andb_true_iff, gt_Fin, lt_Fin, le_Fin, !below_lt.
  tauto.
Qed.

(** C3: for every accepted request the alternate-pump estimate is present
    exactly when (20 < flow < 61 and Ns < 20) or (Ns < 18 and flow <= 20),
    Ns being the computed specific speed, and is null otherwise; the
    condition holds at flow 30 with Ns 15 and at flow 10 with Ns 10, and
    fails at flow 100 with Ns 50. *)
Theorem alternate_estimate_trigger :
  (forall (payload : json)
          (N TDHm NPSHA SucType SG NumImpellers Viscosity : number) (q : R),
      reads payload N (Fin q) TDHm NPSHA SucType SG NumImpellers Viscosity ->
      exists result,
        handler (post payload) = mkResponse 200 headers (ResultBody result) /\
        (newPumpPerformance result <> None <->
         trigger_spec q (Ns_in N (Fin q) TDHm NumImpellers)) /\
        (newPumpPerformance result = None <->
         ~ trigger_spec q (Ns_in N (Fin q) TDHm NumImpellers))) /\
  alternate_trigger 30 15 = true /\
  alternate_trigger 10 10 = true /\
  alternate_trigger 100 50 = false.
Proof.
  split.
  - intros payload N TDHm NPSHA SucType SG NumImpellers Viscosity q Hreads.
    destruct (handler_accepts _ _ _ _ _ _ _ _ _ Hreads)
      as (result & Hres & Hh).
    exists result. split; [exact Hh |].
    destruct (sizing_unfold _ _ _ _ _ _ _ _ _ Hres)
      as (_ & _ & _ & _ & _ & _ & _ & _ & _ & _ & Hnew).
    rewrite Hnew. rewrite <- alternate_trigger_spec.
    destruct (alternate_trigger (Fin q) (Ns_in N (Fin q) TDHm NumImpellers));
      split; split; intros H; try reflexivity; try discriminate;
      try congruence.
  - repeat split.
    + apply alternate_trigger_spec. left. simpl. lra.
    + apply alternate_trigger_spec. right. simpl. lra.
    + apply not_true_is_false. intros H. apply alternate_trigger_spec in H.
      destruct H as [[H _] | [_ H]]; lra.
Qed.

Lemma alternate_estimate_trigger_witness :
  exists result,
    handler (post (payload_of 100 3600 1 1 1 1 1 1))
      = mkResponse 200 headers (ResultBody result) /\
    newPumpPerformance result = None.
Proof.
  destruct (proj1 alternate_estimate_trigger _ _ _ _ _ _ _ _ _
              (reads_payload_of 100 3600 1 1 1 1 1 1))
    as (result & Hh & _ & Hnone).
  exists result. split; [exact Hh |]. apply Hnone.
  rewrite Ns_in_100. intros [[H _] | [_ H]]; lra.
Defined.

(** C6: two accepted requests that differ only in the viscosity member get
    results that agree on every member except [reynolds], [ch] and [ce]:
    efficiency, hydraulic power, the performance curve, the warnings and the
    alternate-pump estimate do not depend on the viscosity. *)
Theorem viscosity_noninterference (payload1 payload2 : json)
    (N Q TDHm NPSHA SucType SG NumImpellers Viscosity1 Viscosity2 : number) :
  reads payload1 N Q TDHm NPSHA SucType SG NumImpellers Viscosity1 ->
  reads payload2 N Q TDHm NPSHA SucType SG NumImpellers Viscosity2 ->
  exists result1 result2,
    handler (post payload1) = mkResponse 200 headers (ResultBody result1) /\
    handler (post payload2) = mkResponse 200 headers (ResultBody result2) /\
    same_but_viscous result1 result2.
Proof.
  intros H1 H2.
  destruct (handler_accepts _ _ _ _ _ _ _ _ _ H1) as (r1 & Hr1 & Hh1).
  destruct (handler_accepts _ _ _ _ _ _ _ _ _ H2) as (r2 & Hr2 & Hh2).
  exists r1, r2. split; [exact Hh1 |]. split; [exact Hh2 |].
  revert Hr1 Hr2. unfold sizing. cbv zeta.
  destruct (Ns_status _) as [Nstatus statusText].
  destruct (generatePerformanceData _ _ _ _ _ _) as [pd |];
    [| discriminate].
  intros Hr1 Hr2. injection Hr1 as <-. injection Hr2 as <-.
  unfold same_but_viscous. simpl. repeat split; reflexivity.
Qed.

Lemma viscosity_noninterference_witness :
  exists result1 result2,
    handler (post (payload_of 100 3600 1 1 1 1 1 1))
      = mkResponse 200 headers (ResultBody result1) /\
    handler (post (payload_of 100 3600 1 1 1 1 1 40))
      = mkResponse 200 headers (ResultBody result2) /\
    same_but_viscous result1 result2.
Proof.
  apply (viscosity_noninterference _ _ 100 3600 1 1 1 1 1 1 40).
  - apply reads_payload_of.
  - apply reads_payload_of.
Defined.

End Engine.

(** ** Validation of the request *)

Module Validation.
Import JS JSFacts Pump Bands BandFacts Request RequestFacts.
Local Open Scope string_scope.

Lemma invalid_spec (v : value) : invalid v = false <-> finite_number v.
Proof.
  unfold invalid, finite_number. split.
  - destruct v as [| [| b | [r | | |] | s | l | l]]; simpl;
      intros H; try discriminate H. exists r. reflexivity.
  - intros [r ->]. reflexivity.
Qed.

Lemma numbers_fields (payload : json) :
  numbers payload = map (fun nk => (fst nk, get payload (snd nk))) fields.
Proof. reflexivity. Qed.

Lemma first_invalid_stops (payload : json)
      (pre rest : list (string * string)) (name key : string) :
  (forall n k, In (n, k) pre -> finite_number (get payload k)) ->
  ~ finite_number (get payload key) ->
  first_invalid
    (map (fun nk => (fst nk, get payload (snd nk)))
         (pre ++ (name, key) :: rest)%list) = Some name.
Proof.
  intros Hpre Hbad. induction pre as [| [n k] pre IH]; simpl.
  - destruct (invalid (get payload key)) eqn:Hinv; [reflexivity |].
    apply invalid_spec in Hinv. contradiction.
  - assert (Hk : invalid (get payload k) = false).
    { apply invalid_spec. apply (Hpre n k). left. reflexivity. }
    rewrite Hk. apply IH. intros n' k' Hin. apply (Hpre n' k').
    right. exact Hin.
Qed.

Lemma first_invalid_none (payload : json) (l : list (string * string)) :
  (forall n k, In (n, k) l -> finite_number (get payload k)) ->
  first_invalid (map (fun nk => (fst nk, get payload (snd nk))) l) = None.
Proof.
  intros Hall. induction l as [| [n k] l IH]; simpl; [reflexivity |].
  assert (Hk : invalid (get payload k) = false).
  { apply invalid_spec. apply (Hall n k). left. reflexivity. }
  rewrite Hk. apply IH. intros n' k' Hin. apply (Hall n' k').
  right. exact Hin.
Qed.

Lemma handler_post (payload : json) :
  payload <> JNull ->
  handler (post payload) =
  match first_invalid (numbers payload) with
  | Some k => mkResponse 400 headers (ErrorBody (invalid_message k))
  | None =>
      let num k := num_of (get payload k) in
      match sizing (num "n") (num "q") (num "tdhm") (num "npsha")
                   (num "suctype") (num "sg") (num "num_impellers")
                   (num "viscosity") with
      | Some result => mkResponse 200 headers (ResultBody result)
      | None => server_error
      end
  end.
Proof.
  intros Hnull. unfold handler, post. simpl.
  destruct payload; try reflexivity. contradiction Hnull. reflexivity.
Qed.

(** A body that parses to [null] has no member to read: the destructuring
    throws and the answer is the 500 of the [catch] block. *)
Lemma null_payload_server_error :
  handler (post JNull) = server_error /\ statusCode server_error = 500%Z.
Proof. split; reflexivity. Qed.

(** C1, as stated, fails: a request whose eight members are finite numbers
    and whose [suctype] is 3 is accepted with status 200. *)
Lemma suctype_3_accepted :
  exists result,
    handler (post (payload_of 3000 500 120 6 3 1 1 1))
      = mkResponse 200 headers (ResultBody result) /\
    statusCode (handler (post (payload_of 3000 500 120 6 3 1 1 1))) <> 400%Z.
Proof.
  destruct (handler_accepts _ _ _ _ _ _ _ _ _
              (reads_payload_of 3000 500 120 6 3 1 1 1))
    as (result & _ & Hh).
  exists result. split; [exact Hh |]. rewrite Hh. simpl. discriminate.
Qed.

(** C1, amended: for every POST request whose body parses to a value other
    than null, the handler answers 400 with a message naming the first of the
    eight required members (in the order n, q, tdhm, npsha, suctype, sg,
    num_impellers, viscosity) that is missing, not a number, NaN or
    infinite, and the body of that answer holds nothing computed; when all
    eight are finite numbers the request is accepted with status 200,
    whatever the value of suctype. *)
Theorem request_validation (payload : json) :
  payload <> JNull ->
  (forall (pre rest : list (string * string)) (name key : string),
      fields = (pre ++ (name, key) :: rest)%list ->
      (forall n k, In (n, k) pre -> finite_number (get payload k)) ->
      ~ finite_number (get payload key) ->
      handler (post payload)
        = mkResponse 400 headers (ErrorBody (invalid_message name))) /\
  ((forall n k, In (n, k) fields -> finite_number (get payload k)) ->
   exists result,
     handler (post payload) = mkResponse 200 headers (ResultBody result)).
Proof.
  intros Hnull. split.
  - intros pre rest name key Hfields Hpre Hbad.
    rewrite (handler_post payload Hnull), numbers_fields, Hfields.
    rewrite (first_invalid_stops payload pre rest name key Hpre Hbad).
    reflexivity.
  - intros Hall.
    rewrite (handler_post payload Hnull), numbers_fields.
    rewrite (first_invalid_none payload fields Hall). cbv zeta.
    match goal with
    | |- context [sizing ?n ?q ?h ?a ?s ?g ?i ?v] =>
        destruct (sizing_defined n q h a s g i v) as [result ->]
    end.
    exists result. reflexivity.
Qed.

Lemma request_validation_witness :
  handler (post (JObj [("n", JNum 3000); ("q", JStr "500")]))
    = mkResponse 400 headers
        (ErrorBody "Invalid or missing number for 'Q'").
Proof.
  assert (Hnull : JObj [("n", JNum 3000); ("q", JStr "500")] <> JNull)
    by discriminate.
  apply (proj1 (request_validation _ Hnull)
               [("N", "n")] (tl (tl fields)) "Q" "q").
  - reflexivity.
  - intros n k [Heq | []]. injection Heq as _ <-. exists 3000. reflexivity.
  - intros [r Hr]. discriminate Hr.
Defined.

End Validation.

(** ** The performance curve *)

Module Curve.
Import JS JSFacts Pump Bands BandFacts Request RequestFacts.
Local Open Scope string_scope.

Lemma lagrangianInterpolation_Fin (x a b c d e f : R) :
  lagrangianInterpolation (Fin x) (co a b c d e f)
  = Fin (a + b * x + c * x ^ 2 + d * x ^ 3 + e * x ^ 4 + f * x ^ 5).
Proof.
  unfold lagrangianInterpolation, co. simpl Pump.a. simpl Pump.b.
  simpl Pump.c. simpl Pump.d. simpl Pump.e. simpl Pump.f.
  rewrite !Math_pow_lit. reflexivity.
Qed.

(** Each power point in terms of the flow, head and efficiency points. *)
Lemma powerPoints_at (Q TDHm Eff NPSHA SG : number)
      (hc ec nc : Coefficients) (i : nat) :
  (i < 6)%nat ->
  let pd := performance_curves Q TDHm Eff NPSHA SG hc ec nc in
  at_index (powerPoints pd) i =
  if (at_index (flowPoints pd) i === 0)%js
  then (0.9 * ((at_index (flowPoints pd) 1 * at_index (headPoints pd) 1 * SG)
               / power_divisor (at_index (efficiencyPoints pd) 1)))%js
  else ((at_index (flowPoints pd) i * at_index (headPoints pd) i * SG)
        / power_divisor (at_index (efficiencyPoints pd) i))%js.
Proof.
  intros Hi pd.
  do 6 (destruct i as [| i]; [reflexivity |]). lia.
Qed.

Lemma flowPoints_at (q : R) (TDHm Eff NPSHA SG : number)
      (hc ec nc : Coefficients) (i : nat) :
  (i < 6)%nat ->
  let pd := performance_curves (Fin q) TDHm Eff NPSHA SG hc ec nc in
  exists p : R,
    at_index (flowPercentages pd) i = Fin p /\
    at_index (flowPoints pd) i = Fin (p * q / 100) /\
    (i = 0%nat -> p = 0) /\ ((0 < i)%nat -> 0 < p).
Proof.
  intros Hi pd.
  assert (H100 : 100 <> 0) by lra.
  do 6 (destruct i as [| i];
        [eexists; split; [reflexivity |]; split;
         [simpl; destruct (Req_dec_T 100 0); [contradiction | reflexivity] |];
         split; intros; try lra; try lia; try reflexivity |]).
  lia.
Qed.

Lemma power_divisor_nonzero (e : number) : power_divisor e <> Fin 0.
Proof.
  unfold power_divisor, or, truthy.
  destruct e as [x | | |]; simpl; unfold signed_inf; case_dec; simpl;
    unfold signed_inf; case_dec;
    try discriminate; try lra; intros H; injection H as H; lra.
Qed.

Lemma power_divisor_zero_efficiency (e : number) :
  (e / 100)%js = Fin 0 -> power_divisor e = Fin (367.63 * 0.01).
Proof.
  intros H. unfold power_divisor. rewrite H. unfold or. simpl.
  destruct (Req_dec_T 0 0) as [_ | H0]; [reflexivity |].
  contradiction H0. reflexivity.
Qed.

Lemma power_divisor_truthy (e : number) :
  truthy (e / 100)%js = true -> power_divisor e = (367.63 * (e / 100))%js.
Proof.
  intros H. unfold power_divisor. rewrite or_truthy by exact H. reflexivity.
Qed.

Lemma kW_zero_efficiency (Q TDHm SG : number) :
  isFinite (kW_of Q TDHm SG (Fin 0)) = false.
Proof.
  unfold kW_of.
  change (mul (Fin 367.63) (Fin 0)) with (Fin (367.63 * 0)).
  replace (367.63 * 0) with 0 by lra. apply div_zero_not_finite.
Qed.

Lemma headPoints_at (Q TDHm Eff NPSHA SG : number)
      (hc ec nc : Coefficients) (i : nat) :
  (i < 6)%nat ->
  let pd := performance_curves Q TDHm Eff NPSHA SG hc ec nc in
  at_index (headPoints pd) i
  = (lagrangianInterpolation (at_index (flowPercentages pd) i) hc
     * (TDHm / 100))%js.
Proof.
  intros Hi pd. do 6 (destruct i as [| i]; [reflexivity |]). lia.
Qed.

Lemma efficiencyPoints_at (Q TDHm Eff NPSHA SG : number)
      (hc ec nc : Coefficients) (i : nat) :
  (i < 6)%nat ->
  let pd := performance_curves Q TDHm Eff NPSHA SG hc ec nc in
  at_index (efficiencyPoints pd) i
  = Math_max 0 (Math_min 100
      (lagrangianInterpolation (at_index (flowPercentages pd) i) ec * Eff)%js).
Proof.
  intros Hi pd. do 6 (destruct i as [| i]; [reflexivity |]). lia.
Qed.

(** At n = 0.04 rpm, q = 3600 m3/h and one stage of 1 m the raw efficiency
    of the regression is negative. *)
Lemma Eff_in_small : exists e : R, Eff_in 0.04 3600 1 1 = Fin e /\ e < 0.
Proof.
  unfold Eff_in. rewrite Ns_in_unit. unfold Eff_of. cbv zeta.
  change (Fin 3600 * Fin 4.402867)%js with (Fin (3600 * 4.402867)).
  change (Fin 0.04 * Fin 51.66)%js with (Fin (0.04 * 51.66)).
  rewrite !div_Fin by lra.
  rewrite Math_pow_pos by lra.
  rewrite Math_log10_pos by lra.
  rewrite Math_pow_lit.
  set (P := Rpower (3600 * 4.402867 / 0.04) (-0.2133)).
  set (L := ln (2286 / (0.04 * 51.66)) / ln 10).
  eexists. split; [reflexivity |].
  assert (HP : 0 < P) by (unfold P, Rpower; apply exp_pos).
  assert (HL : 3 <= L).
  { replace 3 with (INR 3 / INR 1) by (simpl; lra).
    unfold L. apply log10_lower; [lra | lia | lra]. }
  simpl pow. nra.
Qed.

(** C9: for every accepted request, each of the six power points of the
    curve is a quotient (times 0.9 at a zero flow) whose divisor is
    367.63 times the point's clamped efficiency over 100 with 0.01 put in its
    place when that is zero: the divisor is never zero, and is
    367.63 * 0.01 whenever the efficiency over 100 equals 0.  The baseline
    hydraulic power has no such guard: it divides by 367.63 times the raw
    efficiency and is not finite when that efficiency is 0. *)
Theorem curve_power_guarded (payload : json)
    (N Q TDHm NPSHA SucType SG NumImpellers Viscosity : number) :
  reads payload N Q TDHm NPSHA SucType SG NumImpellers Viscosity ->
  exists result,
    handler (post payload) = mkResponse 200 headers (ResultBody result) /\
    (forall i : nat, (i < 6)%nat ->
       let pd := performanceData result in
       let at_zero := (at_index (flowPoints pd) i === 0)%js in
       let j := if at_zero then 1%nat else i in
       let numerator :=
         (at_index (flowPoints pd) j * at_index (headPoints pd) j * SG)%js in
       let divisor := power_divisor (at_index (efficiencyPoints pd) j) in
       at_index (powerPoints pd) i
       = (if at_zero then (0.9 * (numerator / divisor))%js
          else (numerator / divisor)%js) /\
       divisor <> Fin 0 /\
       ((at_index (efficiencyPoints pd) j / 100)%js = Fin 0 ->
        divisor = Fin (367.63 * 0.01))) /\
    hydpower result
      = toFixed 2 ((Q * TDHm * SG)
                   / (367.63 * Eff_in N Q TDHm NumImpellers))%js /\
    isFinite ((Q * TDHm * SG) / (367.63 * Fin 0))%js = false.
Proof.
  intros Hreads.
  destruct (handler_accepts _ _ _ _ _ _ _ _ _ Hreads) as (result & Hres & Hh).
  exists result. split; [exact Hh |].
  destruct (sizing_unfold _ _ _ _ _ _ _ _ _ Hres)
    as (hc & ec & nc & _ & _ & _ & _ & _ & _ & Hpd & _).
  split; [| split].
  - intros i Hi. rewrite Hpd. cbv zeta.
    rewrite (powerPoints_at Q TDHm _ NPSHA SG hc ec nc i Hi).
    split; [| split].
    + destruct (seq _ _); reflexivity.
    + apply power_divisor_nonzero.
    + apply power_divisor_zero_efficiency.
  - apply (sizing_hydpower _ _ _ _ _ _ _ _ _ Hres).
  - apply kW_zero_efficiency.
Qed.

Lemma curve_power_guarded_witness :
  exists result,
    handler (post (payload_of 100 3600 1 1 1 1 1 1))
      = mkResponse 200 headers (ResultBody result) /\
    forall i : nat, (i < 6)%nat ->
      exists numerator divisor : number,
        divisor <> Fin 0 /\
        (at_index (powerPoints (performanceData result)) i
           = (numerator / divisor)%js \/
         at_index (powerPoints (performanceData result)) i
           = (0.9 * (numerator / divisor))%js).
Proof.
  destruct (curve_power_guarded _ _ _ _ _ _ _ _ _
              (reads_payload_of 100 3600 1 1 1 1 1 1))
    as (result & Hh & Hpoints & _).
  exists result. split; [exact Hh |].
  intros i Hi. pose proof (Hpoints i Hi) as H. cbv zeta in H.
  destruct (seq (at_index (flowPoints (performanceData result)) i) (Fin 0));
    destruct H as (Heq & Hnz & _); do 2 eexists;
    (split; [exact Hnz |]); [right | left]; exact Heq.
Defined.

(** C7, as stated, fails: at n = 0.04, q = 3600, tdhm = 1 the raw efficiency
    is negative, the efficiency point at 25% flow is clamped to 0, and the
    power point there is computed with the divisor 367.63 * 0.01; it is
    finite and differs from flow * head * SG / (367.63 * eff / 100), the
    formula with the point's own efficiency. *)
Lemma zero_efficiency_power_point :
  exists result,
    handler (post (payload_of 0.04 3600 1 1 1 1 1 1))
      = mkResponse 200 headers (ResultBody result) /\
    let pd := performanceData result in
    at_index (flowPoints pd) 1 = Fin 900 /\
    at_index (efficiencyPoints pd) 1 = Fin 0 /\
    at_index (powerPoints pd) 1
    <> ((at_index (flowPoints pd) 1 * at_index (headPoints pd) 1 * 1)
        / (367.63 * (at_index (efficiencyPoints pd) 1 / 100)))%js.
Proof.
  destruct (handler_accepts _ _ _ _ _ _ _ _ _
              (reads_payload_of 0.04 3600 1 1 1 1 1 1))
    as (result & Hres & Hh).
  exists result. split; [exact Hh |].
  destruct (sizing_unfold _ _ _ _ _ _ _ _ _ Hres)
    as (hc & ec & nc & Hhc & Hec & _ & _ & _ & _ & Hpd & _).
  rewrite Ns_in_unit in Hhc, Hec.
  assert (Hb : band_of (Fin 0.04) = VeryLow)
    by (apply band_of_Fin; simpl; lra).
  rewrite Hb in Hhc, Hec. simpl in Hhc, Hec.
  injection Hhc as <-. injection Hec as <-.
  destruct Eff_in_small as (e & He & Hneg).
  cbv zeta. rewrite Hpd, He.
  assert (Hflow : at_index (flowPoints
            (performance_curves 3600 1 (Fin e) 1 1
               (co 120.8 (-0.21384782) 0.010905096 (-0.00021595602)
                   1.3648307e-06 (-2.8993229e-09))
               (co 0 2.4445788 (-0.014159341) (-0.00012353846)
                   1.869011e-06 (-6.6227106e-09)) nc)) 1 = Fin 900).
  { change (Fin 25 * Fin 3600 / Fin 100 = Fin 900)%js.
    change (Fin 25 * Fin 3600)%js with (Fin (25 * 3600)).
    rewrite div_Fin by lra. f_equal. lra. }
  assert (Heff : at_index (efficiencyPoints
            (performance_curves 3600 1 (Fin e) 1 1
               (co 120.8 (-0.21384782) 0.010905096 (-0.00021595602)
                   1.3648307e-06 (-2.8993229e-09))
               (co 0 2.4445788 (-0.014159341) (-0.00012353846)
                   1.869011e-06 (-6.6227106e-09)) nc)) 1 = Fin 0).
  { rewrite efficiencyPoints_at by lia.
    change (at_index (flowPercentages _) 1) with (Fin 25).
    rewrite lagrangianInterpolation_Fin.
    match goal with
    | |- context [(Fin ?p * Fin e)%js] =>
        change (Fin p * Fin e)%js with (Fin (p * e));
        apply clamp_negative; [lra |];
        assert (Hp : 0 < p) by (simpl pow; lra); nra
    end. }
  split; [exact Hflow |]. split; [exact Heff |].
  rewrite powerPoints_at by lia. rewrite Heff, Hflow.
  rewrite headPoints_at by lia.
  change (at_index (flowPercentages _) 1) with (Fin 25).
  rewrite lagrangianInterpolation_Fin.
  rewrite (div_Fin 1 100) by lra.
  match goal with
  | |- context [(Fin 900 * (Fin ?h * Fin ?t) * Fin 1)%js] =>
      change (Fin 900 * (Fin h * Fin t) * Fin 1)%js
        with (Fin (900 * (h * t) * 1));
      set (x := 900 * (h * t) * 1)
  end.
  assert (Hseq : seq (Fin 900) (Fin 0) = false)
    by (apply seq_Fin_false; lra).
  rewrite Hseq.
  rewrite (power_divisor_zero_efficiency (Fin 0))
    by (rewrite div_Fin by lra; f_equal; lra).
  rewrite (div_Fin 0 100) by lra.
  change (Fin 367.63 * Fin (0 / 100))%js with (Fin (367.63 * (0 / 100))).
  replace (367.63 * (0 / 100)) with 0 by lra.
  intros Heq.
  pose proof (div_zero_not_finite (Fin x)) as Hinf.
  rewrite <- Heq, isFinite_div_Fin in Hinf by lra. discriminate Hinf.
Qed.

Lemma flow_point_zero (q : R) (TDHm Eff NPSHA SG : number)
      (hc ec nc : Coefficients) (i : nat) :
  0 < q -> (i < 6)%nat ->
  let pd := performance_curves (Fin q) TDHm Eff NPSHA SG hc ec nc in
  (at_index (flowPoints pd) i === 0)%js = (i =? 0)%nat.
Proof.
  intros Hq Hi pd.
  destruct (flowPoints_at q TDHm Eff NPSHA SG hc ec nc i Hi)
    as (p & _ & Hflow & Hzero & Hpos).
  fold pd in Hflow. rewrite Hflow.
  destruct i as [| i]; simpl Nat.eqb.
  - apply seq_Fin. rewrite Hzero by reflexivity. lra.
  - apply seq_Fin_false. assert (0 < p) by (apply Hpos; lia).
    intros H0. assert (Hpq : 0 < p * q) by (apply Rmult_lt_0_compat; lra).
    lra.
Qed.

(** C7, amended: for every accepted request with flow > 0, each power point
    at a nonzero flow fraction equals flow_i * head_i * SG divided by
    367.63 times the point's clamped efficiency over 100, the value 0.01
    taking the place of that fraction when it is zero (or not a number); so
    it equals the standard formula with the point's own efficiency whenever
    that efficiency is not zero.  The power at the 0% point is exactly 0.9
    times the power at the 25% point. *)
Theorem curve_power_formula (payload : json)
    (N TDHm NPSHA SucType SG NumImpellers Viscosity : number) (q : R) :
  reads payload N (Fin q) TDHm NPSHA SucType SG NumImpellers Viscosity ->
  0 < q ->
  exists result,
    handler (post payload) = mkResponse 200 headers (ResultBody result) /\
    let pd := performanceData result in
    (forall i : nat, (1 <= i < 6)%nat ->
       at_index (powerPoints pd) i
       = ((at_index (flowPoints pd) i * at_index (headPoints pd) i * SG)
          / (367.63 * (at_index (efficiencyPoints pd) i / 100 || 0.01)))%js /\
       (truthy (at_index (efficiencyPoints pd) i / 100)%js = true ->
        at_index (powerPoints pd) i
        = ((at_index (flowPoints pd) i * at_index (headPoints pd) i * SG)
           / (367.63 * (at_index (efficiencyPoints pd) i / 100)))%js)) /\
    at_index (powerPoints pd) 0
    = (0.9 * at_index (powerPoints pd) 1)%js.
Proof.
  intros Hreads Hq.
  destruct (handler_accepts _ _ _ _ _ _ _ _ _ Hreads) as (result & Hres & Hh).
  exists result. split; [exact Hh |].
  destruct (sizing_unfold _ _ _ _ _ _ _ _ _ Hres)
    as (hc & ec & nc & _ & _ & _ & _ & _ & _ & Hpd & _).
  cbv zeta. rewrite Hpd. split.
  - intros i Hi.
    rewrite powerPoints_at by lia.
    rewrite flow_point_zero by (assumption || lia).
    destruct i as [| i]; [lia |]. simpl Nat.eqb. cbv iota.
    split; [reflexivity |].
    intros Htruthy. rewrite power_divisor_truthy by exact Htruthy.
    reflexivity.
  - rewrite !powerPoints_at by lia.
    rewrite !flow_point_zero by (assumption || lia).
    reflexivity.
Qed.

Lemma curve_power_formula_witness :
  exists result,
    handler (post (payload_of 100 3600 1 1 1 1 1 1))
      = mkResponse 200 headers (ResultBody result) /\
    at_index (powerPoints (performanceData result)) 0
    = (0.9 * at_index (powerPoints (performanceData result)) 1)%js.
Proof.
  destruct (curve_power_formula _ _ _ _ _ _ _ _ 3600
              (reads_payload_of 100 3600 1 1 1 1 1 1))
    as (result & Hh & _ & Hzero).
  - lra.
  - exists result. split; [exact Hh | exact Hzero].
Defined.

End Curve.

(** ** The alternate-pump estimate *)

Module Alternate.
Import JS JSFacts Pump Bands BandFacts Request RequestFacts.
Local Open Scope string_scope.

(** At n = 1 rpm, q = 9 m3/h and one stage of 1 m: Ns = sqrt(9/3600). *)
Lemma Ns_in_small : Ns_in 1 9 1 1 = Fin 0.05.
Proof.
  unfold Ns_in, Ns_of, HeadStage.
  rewrite !div_Fin by lra.
  rewrite Math_pow_half by lra.
  rewrite Math_pow_pos by lra.
  replace (1 / 1) with 1 by lra. rewrite Rpower_1_l.
  rewrite mul_Fin, div_Fin by lra.
  rewrite (sqrt_lem_1 (9 / 3600) 0.05) by lra.
  f_equal. lra.
Qed.

Lemma newEfficiencyPercent_small (originalEff : number) :
  newEfficiencyPercent (Fin 0.05) (Fin 9) originalEff = Fin 0.
Proof.
  unfold newEfficiencyPercent.
  assert (H1 : gt (Fin 9) (Fin 20) = false) by (apply gt_Fin_false; lra).
  assert (H2 : lt (Fin 0.05) (Fin 18) = true) by (apply lt_Fin; lra).
  assert (H3 : le (Fin 9) (Fin 20) = true) by (apply le_Fin; lra).
  rewrite H1, H2, H3. cbv iota beta. simpl andb. cbv iota.
  rewrite !Math_pow_lit.
  rewrite neg_Fin, !mul_Fin.
  repeat (rewrite add_Fin || rewrite sub_Fin).
  rewrite mul_Fin.
  apply clamp_negative; [lra |]. simpl pow. lra.
Qed.

Lemma clamped_zero_power (Ns Q TDHm ImpDia NPSHA N SG originalEff : number) :
  newEfficiencyPercent Ns Q originalEff = Fin 0 ->
  np_efficiency
    (calculateNewPumpPerformance Ns Q TDHm ImpDia NPSHA N SG originalEff)
    = Fin 0 /\
  np_hydpower
    (calculateNewPumpPerformance Ns Q TDHm ImpDia NPSHA N SG originalEff)
    = toFixed 2 ((Q * TDHm * SG) / Fin 0)%js /\
  isFinite
    (np_hydpower
       (calculateNewPumpPerformance Ns Q TDHm ImpDia NPSHA N SG originalEff))
    = false.
Proof.
  intros Hzero. unfold calculateNewPumpPerformance. cbv zeta.
  rewrite Hzero.
  rewrite (div_Fin 0 100) by lra.
  rewrite (mul_Fin 367.63). replace (367.63 * (0 / 100)) with 0 by lra.
  cbn [np_efficiency np_hydpower].
  split; [apply toFixed_zero |]. split; [reflexivity |].
  rewrite isFinite_toFixed. apply div_zero_not_finite.
Qed.

(** At n = 1 rpm, q = 36 m3/h and one stage of 1 m: Ns = 0.1 and the raw
    efficiency of the regression is negative. *)
Lemma Ns_in_tenth : Ns_in 1 36 1 1 = Fin 0.1.
Proof.
  rewrite Ns_in_pos by lra.
  rewrite (sqrt_lem_1 (36 / 3600) 0.1) by lra.
  replace (1 / 1) with 1 by lra. rewrite Rpower_1_l. f_equal. lra.
Qed.

Lemma Eff_in_tenth : exists e : R, Eff_in 1 36 1 1 = Fin e /\ e < 0.
Proof.
  unfold Eff_in. rewrite Ns_in_tenth, Eff_of_pos by lra.
  set (P := Rpower (36 * 4.402867 / 1) (-0.2133)).
  set (L := ln (2286 / (0.1 * 51.66)) / ln 10).
  eexists. split; [reflexivity |].
  assert (HP : 0 < P) by (unfold P, Rpower; apply exp_pos).
  assert (HL : 2 <= L).
  { replace 2 with (INR 2 / INR 1) by (simpl; lra).
    unfold L. apply log10_lower; [lra | lia | simpl; lra]. }
  simpl pow. nra.
Qed.

Lemma newEfficiencyPercent_derated (e : R) :
  e < 0 -> newEfficiencyPercent (Fin 0.1) (Fin 36) (Fin e) = Fin 0.
Proof.
  intros He. unfold newEfficiencyPercent.
  assert (H1 : gt (Fin 36) (Fin 20) = true) by (apply gt_Fin; lra).
  assert (H2 : lt (Fin 36) (Fin 61) = true) by (apply lt_Fin; lra).
  assert (H3 : lt (Fin 0.1) (Fin 20) = true) by (apply lt_Fin; lra).
  rewrite H1, H2, H3. simpl andb. cbv iota.
  rewrite mul_Fin, sub_Fin. apply clamp_negative; lra.
Qed.

(** The estimate returned on an accepted request whose trigger holds and
    whose new efficiency is clamped to 0, for positive q * tdhm * sg. *)
Lemma unguarded_estimate (n q h a s g k v : R) :
  0 < q * h * g ->
  alternate_trigger (Fin q) (Ns_in (Fin n) (Fin q) (Fin h) (Fin k)) = true ->
  newEfficiencyPercent (Ns_in (Fin n) (Fin q) (Fin h) (Fin k)) (Fin q)
                       (Eff_in (Fin n) (Fin q) (Fin h) (Fin k)) = Fin 0 ->
  exists result estimate,
    handler (post (payload_of n q h a s g k v))
      = mkResponse 200 headers (ResultBody result) /\
    newPumpPerformance result = Some estimate /\
    np_efficiency estimate = Fin 0 /\
    np_hydpower estimate = PosInf.
Proof.
  intros Hpos Htrig Hzero.
  destruct (handler_accepts _ _ _ _ _ _ _ _ _
              (reads_payload_of n q h a s g k v))
    as (result & Hres & Hh).
  destruct (sizing_unfold _ _ _ _ _ _ _ _ _ Hres)
    as (_ & _ & _ & _ & _ & _ & _ & _ & _ & _ & Hnew).
  rewrite Htrig in Hnew.
  destruct (clamped_zero_power _ _ (Fin h)
              (ImpDia_in (Fin n) (Fin q) (Fin h) (Fin k))
              (Fin a) (Fin n) (Fin g) _ Hzero)
    as (He & Hp & _).
  eexists result, _. split; [exact Hh |]. split; [exact Hnew |].
  split; [exact He |].
  rewrite Hp, !mul_Fin. simpl. unfold signed_inf.
  destruct (Req_dec_T 0 0) as [_ | H0]; [| contradiction H0; reflexivity].
  destruct (Rlt_dec 0 (q * h * g)); [reflexivity | contradiction].
Qed.

(** C10: the alternate hydraulic power has no guard against a zero
    efficiency.  Whenever the new efficiency is clamped to exactly 0, the
    power returned is the quotient by 0 and is not finite; and that happens
    on accepted requests that satisfy the trigger: at n = 1, q = 9,
    tdhm = 1 (Ns = 0.05, flow <= 20) the degree-7 polynomial is negative,
    and at n = 1, q = 36, tdhm = 1 (Ns = 0.1, 20 < flow < 61) the baseline
    efficiency is below 9.89%; in both the new efficiency is clamped to 0
    and the power returned is Infinity. *)
Theorem alternate_power_unguarded :
  (forall Ns Q TDHm ImpDia NPSHA N SG originalEff : number,
      newEfficiencyPercent Ns Q originalEff = Fin 0 ->
      isFinite
        (np_hydpower
           (calculateNewPumpPerformance Ns Q TDHm ImpDia NPSHA N SG
                                        originalEff))
      = false) /\
  (exists result estimate,
      handler (post (payload_of 1 9 1 1 1 1 1 1))
        = mkResponse 200 headers (ResultBody result) /\
      newPumpPerformance result = Some estimate /\
      np_efficiency estimate = Fin 0 /\
      np_hydpower estimate = PosInf) /\
  (exists result estimate,
      handler (post (payload_of 1 36 1 1 1 1 1 1))
        = mkResponse 200 headers (ResultBody result) /\
      newPumpPerformance result = Some estimate /\
      np_efficiency estimate = Fin 0 /\
      np_hydpower estimate = PosInf).
Proof.
  split; [| split].
  - intros Ns Q TDHm ImpDia NPSHA N SG originalEff Hzero.
    apply (clamped_zero_power _ _ TDHm ImpDia NPSHA N SG _ Hzero).
  - apply unguarded_estimate; [lra | |].
    + rewrite Ns_in_small. apply Engine.alternate_trigger_spec.
      right. simpl. lra.
    + rewrite Ns_in_small. apply newEfficiencyPercent_small.
  - apply unguarded_estimate; [lra | |].
    + rewrite Ns_in_tenth. apply Engine.alternate_trigger_spec.
      left. simpl. lra.
    + destruct Eff_in_tenth as (e & -> & He). rewrite Ns_in_tenth.
      apply newEfficiencyPercent_derated. exact He.
Qed.

End Alternate.

(** ** Baseline efficiency and the number of stages *)

Module Efficiency.
Import JS JSFacts Pump Bands BandFacts Request RequestFacts.
Local Open Scope string_scope.

Lemma Rpower_16_three_quarters : Rpower 16 0.75 = 8.
Proof.
  replace 16 with (Rpower 2 (INR 4))
    by (rewrite Rpower_pow by lra; simpl; lra).
  rewrite Rpower_mult.
  replace (INR 4 * 0.75) with (INR 3) by (simpl; lra).
  rewrite Rpower_pow by lra. simpl. lra.
Qed.

(** The baseline efficiency at n = 40, q = 3600, tdhm = 16 with one stage
    and with sixteen. *)
Lemma Eff_in_stages :
  exists e1 e16 : R,
    Eff_in 40 3600 16 1 = Fin e1 /\
    Eff_in 40 3600 16 16 = Fin e16 /\
    0.5 < e1 /\ e1 + 0.015 < e16 /\ e16 < 1.
Proof.
  assert (Hs : sqrt (3600 / 3600) = 1).
  { replace (3600 / 3600) with 1 by lra. apply sqrt_1. }
  assert (HNs1 : Ns_in 40 3600 16 1 = Fin 5).
  { rewrite Ns_in_pos by lra. rewrite Hs.
    replace (16 / 1) with 16 by lra. rewrite Rpower_16_three_quarters.
    f_equal. lra. }
  assert (HNs16 : Ns_in 40 3600 16 16 = Fin 40).
  { rewrite Ns_in_pos by lra. rewrite Hs.
    replace (16 / 16) with 1 by lra. rewrite Rpower_1_l.
    f_equal. lra. }
  unfold Eff_in. rewrite HNs1, HNs16. rewrite !Eff_of_pos by lra.
  set (P := Rpower (3600 * 4.402867 / 40) (-0.2133)).
  set (L1 := ln (2286 / (5 * 51.66)) / ln 10).
  set (L16 := ln (2286 / (40 * 51.66)) / ln 10).
  assert (HP : 0 < P < 1).
  { unfold P, Rpower. split; [apply exp_pos |].
    rewrite <- exp_0. apply exp_increasing.
    assert (Hln : 0 < ln (3600 * 4.402867 / 40))
      by (rewrite <- ln_1; apply ln_increasing; lra).
    nra. }
  assert (H1 : 3 / 4 <= L1 <= 1).
  { split.
    - replace (3 / 4) with (INR 3 / INR 4) by (simpl; lra).
      unfold L1. apply log10_lower; [lra | lia |]. simpl. lra.
    - replace 1 with (INR 1 / INR 1) by (simpl; lra).
      unfold L1. apply log10_upper; [lra | lia |]. simpl. lra. }
  assert (H16 : 0 <= L16 <= 1 / 2).
  { split.
    - replace 0 with (INR 0 / INR 1) by (simpl; lra).
      unfold L16. apply log10_lower; [lra | lia |]. simpl. lra.
    - replace (1 / 2) with (INR 1 / INR 2) by (simpl; lra).
      unfold L16. apply log10_upper; [lra | lia |]. simpl. lra. }
  do 2 eexists. split; [reflexivity |]. split; [reflexivity |].
  simpl pow. repeat split; nra.
Qed.

(** C2, as stated, fails: at n = 40, q = 3600, tdhm = 16 the baseline
    efficiency with 16 stages is greater than with one stage, and so is
    the efficiency the handler reports. *)
Lemma efficiency_rises_with_stages :
  (exists e1 e16 : R,
      Eff_in 40 3600 16 1 = Fin e1 /\
      Eff_in 40 3600 16 16 = Fin e16 /\
      e1 < e16 /\
      (Eff_in 40 3600 16 16 <= Eff_in 40 3600 16 1)%js = false) /\
  (exists (result1 result16 : Result) (p1 p16 : R),
      handler (post (payload_of 40 3600 16 6 1 1 1 1))
        = mkResponse 200 headers (ResultBody result1) /\
      handler (post (payload_of 40 3600 16 6 1 1 16 1))
        = mkResponse 200 headers (ResultBody result16) /\
      efficiency result1 = Fin p1 /\
      efficiency result16 = Fin p16 /\
      p1 < p16).
Proof.
  destruct Eff_in_stages as (e1 & e16 & He1 & He16 & Hlo & Hgap & Hhi).
  split.
  - exists e1, e16. rewrite He1, He16.
    split; [reflexivity |]. split; [reflexivity |].
    split; [lra |]. apply le_Fin_false. lra.
  - destruct (handler_accepts _ _ _ _ _ _ _ _ _
                (reads_payload_of 40 3600 16 6 1 1 1 1))
      as (r1 & Hr1 & Hh1).
    destruct (handler_accepts _ _ _ _ _ _ _ _ _
                (reads_payload_of 40 3600 16 6 1 1 16 1))
      as (r16 & Hr16 & Hh16).
    pose proof (sizing_efficiency _ _ _ _ _ _ _ _ _ Hr1) as Hf1.
    pose proof (sizing_efficiency _ _ _ _ _ _ _ _ _ Hr16) as Hf16.
    rewrite He1, mul_Fin in Hf1. rewrite He16, mul_Fin in Hf16.
    destruct (toFixed_near 2 (e1 * 100)) as (p1 & Hp1 & Hb1); [lra |].
    destruct (toFixed_near 2 (e16 * 100)) as (p16 & Hp16 & Hb16); [lra |].
    exists r1, r16, p1, p16.
    split; [exact Hh1 |]. split; [exact Hh16 |].
    split; [congruence |]. split; [congruence |].
    simpl pow in Hb1, Hb16. lra.
Qed.

Lemma div_lt_antitone (c x y : R) : 0 < c -> 0 < x < y -> c / y < c / x.
Proof.
  intros Hc [Hx Hxy]. unfold Rdiv. apply Rmult_lt_compat_l; [exact Hc |].
  apply Rinv_lt_contravar; [apply Rmult_lt_0_compat; lra | exact Hxy].
Qed.

(** C2, amended: with speed, flow and total head positive and fixed, and
    stage counts k2 > k1 >= 1, the baseline efficiency after the multistage
    penalty with k2 stages is at most the one with k1 stages provided the
    converted specific speed Nus = 51.66 * Ns computed with k1 stages is at
    least 2286; below that value the regression term can outweigh the
    penalty of 0.005 per stage. *)
Theorem efficiency_nonincreasing (n q h k1 k2 ns1 : R) :
  0 < n -> 0 < q -> 0 < h -> 1 <= k1 -> k1 < k2 ->
  Ns_in (Fin n) (Fin q) (Fin h) (Fin k1) = Fin ns1 ->
  2286 <= ns1 * 51.66 ->
  exists e1 e2 : R,
    Eff_in (Fin n) (Fin q) (Fin h) (Fin k1) = Fin e1 /\
    Eff_in (Fin n) (Fin q) (Fin h) (Fin k2) = Fin e2 /\
    e2 <= e1.
Proof.
  intros Hn Hq Hh Hk1 Hk Hns1 Hnus.
  rewrite Ns_in_pos in Hns1 by lra. injection Hns1 as Hns1.
  unfold Eff_in. rewrite !Ns_in_pos by lra.
  set (c := n * sqrt (q / 3600)) in *.
  assert (Hc : 0 < c).
  { apply Rmult_lt_0_compat; [exact Hn |].
    apply sqrt_lt_R0. apply Rdiv_lt_0_compat; lra. }
  set (R1 := Rpower (h / k1) 0.75) in *.
  set (R2 := Rpower (h / k2) 0.75).
  assert (HR2 : 0 < R2) by (unfold R2, Rpower; apply exp_pos).
  assert (HR : R2 < R1).
  { unfold R1, R2. apply Rlt_Rpower_l; [lra |]. split.
    - apply Rdiv_lt_0_compat; lra.
    - apply div_lt_antitone; lra. }
  assert (Hns : 0 < ns1 < c / R2).
  { rewrite <- Hns1. split.
    - apply Rdiv_lt_0_compat; lra.
    - apply div_lt_antitone; lra. }
  set (ns2 := c / R2) in *. rewrite Hns1.
  rewrite !Eff_of_pos by lra.
  set (x1 := 2286 / (ns1 * 51.66)).
  set (x2 := 2286 / (ns2 * 51.66)).
  assert (Hx2 : 0 < x2 < x1).
  { unfold x1, x2. split.
    - apply Rdiv_lt_0_compat; [lra |]. apply Rmult_lt_0_compat; lra.
    - apply div_lt_antitone; [lra |]. split; [| apply Rmult_lt_compat_r];
        lra. }
  assert (Hx1 : x1 <= 1).
  { unfold x1. apply Rmult_le_reg_r with (r := ns1 * 51.66); [lra |].
    replace (2286 / (ns1 * 51.66) * (ns1 * 51.66)) with 2286
      by (field; lra).
    lra. }
  pose proof ln_10_pos as H10.
  assert (Hl1 : ln x1 <= 0).
  { destruct Hx1 as [Hlt | Heq].
    - left. rewrite <- ln_1. apply ln_increasing; lra.
    - right. rewrite Heq. apply ln_1. }
  assert (Hl2 : ln x2 < ln x1) by (apply ln_increasing; lra).
  set (L1 := ln x1 / ln 10). set (L2 := ln x2 / ln 10).
  assert (HL1 : L1 <= 0).
  { unfold L1. apply Rmult_le_reg_r with (r := ln 10); [exact H10 |].
    replace (ln x1 / ln 10 * ln 10) with (ln x1) by (field; lra). lra. }
  assert (HL2 : L2 < L1).
  { unfold L1, L2. unfold Rdiv. apply Rmult_lt_compat_r; [| exact Hl2].
    apply Rinv_0_lt_compat. exact H10. }
  do 2 eexists. split; [reflexivity |]. split; [reflexivity |].
  simpl pow. nra.
Qed.

Lemma efficiency_nonincreasing_witness :
  exists e1 e2 : R,
    Eff_in 100 3600 1 1 = Fin e1 /\
    Eff_in 100 3600 1 2 = Fin e2 /\
    e2 <= e1.
Proof.
  apply (efficiency_nonincreasing 100 3600 1 1 2 100); try lra.
  apply Ns_in_unit.
Defined.

End Efficiency.

(** ** The answers of the handler *)

Module Answers.
Import JS JSFacts Pump Bands BandFacts Request RequestFacts.
Local Open Scope string_scope.

Lemma first_invalid_none_reads (payload : json) :
  first_invalid (numbers payload) = None ->
  exists N Q TDHm NPSHA SucType SG NumImpellers Viscosity : number,
    reads payload N Q TDHm NPSHA SucType SG NumImpellers Viscosity.
Proof.
  unfold numbers, first_invalid. intros H.
  repeat match type of H with
         | (if invalid ?v then _ else _) = None =>
             let E := fresh "E" in
             destruct (invalid v) eqn:E; [discriminate H |];
             apply Validation.invalid_spec in E; destruct E as [? E]
         end.
  do 8 eexists. split; split; try eassumption; reflexivity.
Qed.

Lemma post_not_options : String.eqb "POST" "OPTIONS" = false.
Proof. reflexivity. Qed.

(** X1: the handler answers 500 exactly when the method is POST and the
    body is malformed or parses to null; once a body has parsed to a
    non-null value, nothing in the validation or in the formulas throws. *)
Theorem server_error_iff (event : Event) :
  statusCode (handler event) = 500%Z <->
  httpMethod event = "POST" /\
  (parsed event = SyntaxError \/ parsed event = Payload JNull).
Proof.
  destruct event as [method body]. unfold handler. simpl.
  destruct (String.eqb method "OPTIONS") eqn:Hopt.
  { apply String.eqb_eq in Hopt. subst method. simpl. split.
    - discriminate.
    - intros [H _]. discriminate H. }
  destruct (String.eqb method "POST") eqn:Hpost; simpl.
  2:{ apply String.eqb_neq in Hpost. split.
      - discriminate.
      - intros [H _]. contradiction. }
  apply String.eqb_eq in Hpost. subst method.
  destruct body as [| payload].
  { simpl. split; auto. }
  assert (Hok : forall p : json, p <> JNull ->
            statusCode
              match first_invalid (numbers p) with
              | Some k => mkResponse 400 headers (ErrorBody (invalid_message k))
              | None =>
                  match sizing (num_of (get p "n")) (num_of (get p "q"))
                               (num_of (get p "tdhm")) (num_of (get p "npsha"))
                               (num_of (get p "suctype")) (num_of (get p "sg"))
                               (num_of (get p "num_impellers"))
                               (num_of (get p "viscosity")) with
                  | Some result => mkResponse 200 headers (ResultBody result)
                  | None => server_error
                  end
              end <> 500%Z).
  { intros p _. destruct (first_invalid (numbers p)); [discriminate |].
    match goal with
    | |- context [sizing ?n ?q ?h ?a ?s ?g ?i ?v] =>
        destruct (sizing_defined n q h a s g i v) as [result ->]
    end. discriminate. }
  destruct payload; try (split;
    [ intros H; exfalso; revert H; apply Hok; discriminate
    | intros [_ [H | H]]; discriminate H ]).
  simpl. split; auto.
Qed.

(** X2: the handler returns a sizing result exactly when the method is POST
    and the body parses to a value whose eight required members are all
    finite numbers; there is no other way to obtain a result. *)
Theorem result_iff_valid (event : Event) :
  (exists result,
      handler event = mkResponse 200 headers (ResultBody result)) <->
  (httpMethod event = "POST" /\
   exists (payload : json)
          (N Q TDHm NPSHA SucType SG NumImpellers Viscosity : number),
     parsed event = Payload payload /\
     reads payload N Q TDHm NPSHA SucType SG NumImpellers Viscosity).
Proof.
  split.
  - intros [result Hres]. destruct event as [method body].
    unfold handler in Hres. cbn [httpMethod parsed] in *.
    destruct (String.eqb method "OPTIONS") eqn:Hopt; [discriminate Hres |].
    destruct (String.eqb method "POST") eqn:Hpost; cbn [negb] in Hres;
      [| discriminate Hres].
    apply String.eqb_eq in Hpost. split; [exact Hpost |].
    destruct body as [| payload]; [discriminate Hres |].
    exists payload.
    assert (Hnone : first_invalid (numbers payload) = None).
    { destruct payload; try discriminate Hres;
        destruct (first_invalid _); try discriminate Hres; reflexivity. }
    destruct (first_invalid_none_reads payload Hnone)
      as (N & Q & TDHm & NPSHA & SucType & SG & NumImpellers & Viscosity & H).
    exists N, Q, TDHm, NPSHA, SucType, SG, NumImpellers, Viscosity.
    split; [reflexivity | exact H].
  - intros (Hm & payload & N & Q & TDHm & NPSHA & SucType & SG
            & NumImpellers & Viscosity & Hp & Hreads).
    destruct (handler_accepts _ _ _ _ _ _ _ _ _ Hreads)
      as (result & _ & Hh).
    exists result. destruct event as [method body]. simpl in *.
    subst method body. exact Hh.
Qed.

End Answers.

(** ** Members of the result and the warnings *)

Module Report.
Import JS JSFacts Pump Bands BandFacts Request RequestFacts.
Local Open Scope string_scope.

Lemma sizing_fields
      (N Q TDHm NPSHA SucType SG NumImpellers Viscosity : number)
      (result : Result) :
  sizing N Q TDHm NPSHA SucType SG NumImpellers Viscosity = Some result ->
  let HS := HeadStage TDHm NumImpellers in
  let Ns := Ns_in N Q TDHm NumImpellers in
  let Nss := Nss_of N Q SucType NPSHA in
  let U2 := (AngVel N * (ImpDia_in N Q TDHm NumImpellers / 2 / 1000))%js in
  let vc := calculateViscousCorrection (Re_of Q SucType HS Viscosity) in
  ns result = toFixed 2 Ns /\
  nss result = toFixed 2 Nss /\
  tipspeed result = toFixed 2 U2 /\
  impdia result = toFixed 2 (ImpDia_in N Q TDHm NumImpellers) /\
  headstage result = toFixed 1 HS /\
  reynolds result = toFixed 2 (Re_of Q SucType HS Viscosity) /\
  cq result = toFixed 2 (CQ vc) /\
  ch result = toFixed 2 (CH vc) /\
  ce result = toFixed 2 (CE vc) /\
  warnings result = generateWarnings Ns U2 NPSHA Nss.
Proof.
  unfold sizing. cbv zeta.
  destruct (Ns_status _) as [Nstatus statusText].
  destruct (generatePerformanceData _ _ _ _ _ _) as [pd |]; [| discriminate].
  intros Heq. injection Heq as <-. repeat split; reflexivity.
Qed.

Ltac warning_cases :=
  unfold generateWarnings, gt, lt; case_dec; simpl;
  repeat split; intros;
  repeat match goal with
         | H : _ \/ _ |- _ => destruct H
         | H : False |- _ => contradiction H
         | H : mkWarning _ _ = mkWarning _ _ |- _ => discriminate H
         end;
  try lra; try lia; auto 7.

(** X3: on finite arguments each of the six warnings is in the list exactly
    under its own condition (Ns < 20, Ns > 250, U2 > 55, NPSHA > 10,
    Nss > 213, Nss < 50); the two Ns warnings exclude each other and so do
    the two Nss warnings, so the list never has more than four entries. *)
Theorem warnings_characterised (Ns U2 NPSHA Nss : R) :
  let ws := generateWarnings (Fin Ns) (Fin U2) (Fin NPSHA) (Fin Nss) in
  (In (mkWarning "Ns is too low!" true) ws <-> Ns < 20) /\
  (In (mkWarning "Ns is too high - cannot build this pump" true) ws
   <-> 250 < Ns) /\
  (In (mkWarning "Tip speed too high for dirty service" true) ws
   <-> 55 < U2) /\
  (In (mkWarning "You have more NPSHA than needed" false) ws
   <-> 10 < NPSHA) /\
  (In (mkWarning "Suction specific speed (Nss) is too high" true) ws
   <-> 213 < Nss) /\
  (In (mkWarning "Suction specific speed (Nss) is very low" false) ws
   <-> Nss < 50) /\
  (length ws <= 4)%nat.
Proof. warning_cases. Qed.

Lemma low_Ns_warning (Ns U2 NPSHA Nss : number) :
  lt Ns (Fin 20) = true ->
  In (mkWarning "Ns is too low!" true) (generateWarnings Ns U2 NPSHA Nss).
Proof.
  intros H. unfold generateWarnings. rewrite H. cbv zeta.
  repeat match goal with
         | |- context [if ?c then _ else _] => destruct c
         end; simpl; auto.
Qed.

Lemma low_Ns_band (Ns : number) :
  lt Ns (Fin 20) = true -> band_of Ns = VeryLow.
Proof.
  intros H. destruct Ns as [r | | |]; try discriminate H.
  - apply lt_Fin in H. apply band_of_Fin. simpl. lra.
  - reflexivity.
Qed.

Lemma trigger_low_Ns (Q Ns : number) :
  alternate_trigger Q Ns = true -> lt Ns (Fin 20) = true.
Proof.
  unfold alternate_trigger. rewrite orb_true_iff, !andb_true_iff.
  intros [[_ H] | [H _]]; [exact H |].
  destruct Ns as [r | | |]; try discriminate H; try reflexivity.
  apply lt_Fin in H. apply lt_Fin. lra.
Qed.

(** X4: whenever the result of an accepted request carries an
    alternate-pump estimate, its warnings contain the critical
    [Ns is too low!] and its classification is [Ns1], Very Low Ns. *)
Theorem estimate_implies_low_Ns (payload : json)
    (N Q TDHm NPSHA SucType SG NumImpellers Viscosity : number) :
  reads payload N Q TDHm NPSHA SucType SG NumImpellers Viscosity ->
  exists result,
    handler (post payload) = mkResponse 200 headers (ResultBody result) /\
    (newPumpPerformance result <> None ->
     In (mkWarning "Ns is too low!" true) (warnings result) /\
     nstatus result = "Ns1" /\
     statusText result = "Very Low Ns").
Proof.
  intros Hreads.
  destruct (handler_accepts _ _ _ _ _ _ _ _ _ Hreads) as (result & Hres & Hh).
  exists result. split; [exact Hh |].
  destruct (sizing_unfold _ _ _ _ _ _ _ _ _ Hres)
    as (_ & _ & _ & _ & _ & _ & Hst & Htx & _ & _ & Hnew).
  destruct (sizing_fields _ _ _ _ _ _ _ _ _ Hres)
    as (_ & _ & _ & _ & _ & _ & _ & _ & _ & Hw).
  intros Hsome.
  destruct (alternate_trigger Q (Ns_in N Q TDHm NumImpellers)) eqn:Htrig;
    [| contradiction Hsome].
  apply trigger_low_Ns in Htrig.
  rewrite Hw, Hst, Htx, (low_Ns_band _ Htrig).
  split; [apply low_Ns_warning; exact Htrig |]. split; reflexivity.
Qed.

Lemma estimate_implies_low_Ns_witness :
  exists result,
    handler (post (payload_of 1 9 1 1 1 1 1 1))
      = mkResponse 200 headers (ResultBody result) /\
    (newPumpPerformance result <> None ->
     In (mkWarning "Ns is too low!" true) (warnings result) /\
     nstatus result = "Ns1" /\
     statusText result = "Very Low Ns").
Proof.
  apply (estimate_implies_low_Ns _ 1 9 1 1 1 1 1 1).
  apply reads_payload_of.
Defined.

End Report.

(** ** Viscous correction *)

Module Viscous.
Import JS JSFacts Pump Bands BandFacts Request RequestFacts.
Local Open Scope string_scope.

Lemma Math_pow_mono (r1 r2 d : R) :
  0 <= r1 <= r2 -> 0 < d ->
  exists t1 t2 : R,
    Math_pow (Fin r1) (Fin d) = Fin t1 /\
    Math_pow (Fin r2) (Fin d) = Fin t2 /\
    0 <= t1 <= t2.
Proof.
  intros [H1 H12] Hd.
  assert (Hpos : forall r, 0 < r -> 0 < Rpower r d)
    by (intros r _; unfold Rpower; apply exp_pos).
  destruct (Req_dec_T r1 0) as [-> | Hr1].
  - destruct (Req_dec_T r2 0) as [-> | Hr2].
    + exists 0, 0. rewrite Math_pow_zero by exact Hd. repeat split; lra.
    + exists 0, (Rpower r2 d).
      rewrite Math_pow_zero by exact Hd. rewrite Math_pow_pos by lra.
      assert (0 < Rpower r2 d) by (apply Hpos; lra).
      repeat split; lra.
  - exists (Rpower r1 d), (Rpower r2 d).
    rewrite !Math_pow_pos by lra.
    assert (0 < Rpower r1 d) by (apply Hpos; lra).
    repeat split; try lra.
    apply Rle_Rpower_l; lra.
Qed.

Lemma exp_le (x y : R) : x <= y -> exp x <= exp y.
Proof.
  intros [Hlt | ->]; [left; apply exp_increasing; exact Hlt | right; reflexivity].
Qed.

(** The two correction factors at a Reynolds number whose power is [t]. *)
Lemma viscous_form (Re : number) (th te : R) :
  Math_pow Re (Fin 0.233) = Fin th ->
  Math_pow Re (Fin 0.204) = Fin te ->
  CQ (calculateViscousCorrection Re) = Fin 1 /\
  CH (calculateViscousCorrection Re)
    = Fin (1.004 - 1.391 * exp (- 0.394 * th)) /\
  CE (calculateViscousCorrection Re)
    = Fin (1.016 - 2.848 * exp (- 0.369 * te)).
Proof.
  intros Hh He. unfold calculateViscousCorrection. cbv zeta.
  cbn [CQ CH CE]. rewrite Hh, He, !neg_Fin, !mul_Fin.
  cbn [Math_exp]. rewrite !mul_Fin, !sub_Fin.
  replace (- (0.394) * th) with (- 0.394 * th) by lra.
  replace (- (0.369) * te) with (- 0.369 * te) by lra.
  repeat split. f_equal. lra.
Qed.



(** X6: the head and efficiency correction factors do not decrease when
    the Reynolds number grows (over finite Re >= 0). *)
Theorem viscous_correction_monotone (r1 r2 : R) :
  0 <= r1 <= r2 ->
  exists ch1 ch2 ce1 ce2 : R,
    CH (calculateViscousCorrection (Fin r1)) = Fin ch1 /\
    CH (calculateViscousCorrection (Fin r2)) = Fin ch2 /\
    CE (calculateViscousCorrection (Fin r1)) = Fin ce1 /\
    CE (calculateViscousCorrection (Fin r2)) = Fin ce2 /\
    ch1 <= ch2 /\ ce1 <= ce2.
Proof.
  intros Hr.
  destruct (Math_pow_mono r1 r2 0.233) as (th1 & th2 & Hh1 & Hh2 & Hth);
    [exact Hr | lra |].
  destruct (Math_pow_mono r1 r2 0.204) as (te1 & te2 & He1 & He2 & Hte);
    [exact Hr | lra |].
  destruct (viscous_form (Fin r1) th1 te1 Hh1 He1) as (_ & Hch1 & Hce1).
  destruct (viscous_form (Fin r2) th2 te2 Hh2 He2) as (_ & Hch2 & Hce2).
  do 4 eexists. split; [exact Hch1 |]. split; [exact Hch2 |].
  split; [exact Hce1 |]. split; [exact Hce2 |].
  assert (H1 : exp (- 0.394 * th2) <= exp (- 0.394 * th1))
    by (apply exp_le; lra).
  assert (H2 : exp (- 0.369 * te2) <= exp (- 0.369 * te1))
    by (apply exp_le; lra).
  split; lra.
Qed.

Lemma viscous_correction_monotone_witness :
  exists ch1 ch2 ce1 ce2 : R,
    CH (calculateViscousCorrection (Fin 10)) = Fin ch1 /\
    CH (calculateViscousCorrection (Fin 1000)) = Fin ch2 /\
    CE (calculateViscousCorrection (Fin 10)) = Fin ce1 /\
    CE (calculateViscousCorrection (Fin 1000)) = Fin ce2 /\
    ch1 <= ch2 /\ ce1 <= ce2.
Proof. apply (viscous_correction_monotone 10 1000). lra. Defined.

Lemma Re_of_pos (q s h k v : R) :
  0 < q -> 0 < s -> 0 < h -> 0 < k -> 0 < v ->
  exists x : R,
    0 < x /\
    Re_of (Fin q) (Fin s) (HeadStage (Fin h) (Fin k)) (Fin v)
    = Fin (x / (v * 1e-6)) /\
    x = sqrt (q / s / 3600) * Rpower (9.81 * (h / k)) 0.25.
Proof.
  intros Hq Hs Hh Hk Hv. unfold Re_of, HeadStage.
  assert (Hqs : 0 < q / s / 3600)
    by (apply Rdiv_lt_0_compat; [apply Rdiv_lt_0_compat |]; lra).
  assert (Hhk : 0 < 9.81 * (h / k))
    by (apply Rmult_lt_0_compat; [| apply Rdiv_lt_0_compat]; lra).
  rewrite !div_Fin by lra. rewrite Math_pow_half by exact Hqs.
  rewrite mul_Fin, Math_pow_pos by lra. rewrite !mul_Fin.
  rewrite div_Fin by lra.
  eexists. split; [| split; reflexivity].
  apply Rmult_lt_0_compat; [apply sqrt_lt_R0; exact Hqs |].
  unfold Rpower. apply exp_pos.
Qed.

(** X21: with flow, suction type, head and stage count positive and fixed,
    a larger positive viscosity gives a smaller Reynolds number and head
    and efficiency correction factors that are not larger. *)
Theorem viscosity_derates (q s h k v1 v2 : R) :
  0 < q -> 0 < s -> 0 < h -> 0 < k -> 0 < v1 <= v2 ->
  exists re1 re2 ch1 ch2 ce1 ce2 : R,
    Re_of (Fin q) (Fin s) (HeadStage (Fin h) (Fin k)) (Fin v1) = Fin re1 /\
    Re_of (Fin q) (Fin s) (HeadStage (Fin h) (Fin k)) (Fin v2) = Fin re2 /\
    CH (calculateViscousCorrection (Fin re1)) = Fin ch1 /\
    CH (calculateViscousCorrection (Fin re2)) = Fin ch2 /\
    CE (calculateViscousCorrection (Fin re1)) = Fin ce1 /\
    CE (calculateViscousCorrection (Fin re2)) = Fin ce2 /\
    0 < re2 <= re1 /\ ch2 <= ch1 /\ ce2 <= ce1.
Proof.
  intros Hq Hs Hh Hk [Hv1 Hv].
  destruct (Re_of_pos q s h k v1) as (x & Hx & Hre1 & Hxe); try lra.
  destruct (Re_of_pos q s h k v2) as (x' & _ & Hre2 & Hxe'); try lra.
  rewrite <- Hxe in Hxe'. subst x'.
  assert (Hre : 0 < x / (v2 * 1e-6) <= x / (v1 * 1e-6)).
  { split; [apply Rdiv_lt_0_compat; lra |].
    unfold Rdiv. apply Rmult_le_compat_l; [lra |].
    apply Rinv_le_contravar; lra. }
  destruct (Math_pow_mono (x / (v2 * 1e-6)) (x / (v1 * 1e-6)) 0.233)
    as (th2 & th1 & Hh2 & Hh1 & Hth); [lra | lra |].
  destruct (Math_pow_mono (x / (v2 * 1e-6)) (x / (v1 * 1e-6)) 0.204)
    as (te2 & te1 & He2 & He1 & Hte); [lra | lra |].
  destruct (viscous_form _ th1 te1 Hh1 He1) as (_ & Hch1 & Hce1).
  destruct (viscous_form _ th2 te2 Hh2 He2) as (_ & Hch2 & Hce2).
  do 6 eexists. split; [exact Hre1 |]. split; [exact Hre2 |].
  split; [exact Hch1 |]. split; [exact Hch2 |].
  split; [exact Hce1 |]. split; [exact Hce2 |].
  assert (H1 : exp (- 0.394 * th1) <= exp (- 0.394 * th2))
    by (apply exp_le; lra).
  assert (H2 : exp (- 0.369 * te1) <= exp (- 0.369 * te2))
    by (apply exp_le; lra).
  split; [exact Hre |]. split; lra.
Qed.

Lemma viscosity_derates_witness :
  exists re1 re2 ch1 ch2 ce1 ce2 : R,
    Re_of 500 1 (HeadStage 120 1) 1 = Fin re1 /\
    Re_of 500 1 (HeadStage 120 1) 40 = Fin re2 /\
    CH (calculateViscousCorrection (Fin re1)) = Fin ch1 /\
    CH (calculateViscousCorrection (Fin re2)) = Fin ch2 /\
    CE (calculateViscousCorrection (Fin re1)) = Fin ce1 /\
    CE (calculateViscousCorrection (Fin re2)) = Fin ce2 /\
    0 < re2 <= re1 /\ ch2 <= ch1 /\ ce2 <= ce1.
Proof. apply (viscosity_derates 500 1 120 1 1 40); lra. Defined.

End Viscous.

(** ** Zero divisors that pass the validation *)

Module Edges.
Import JS JSFacts Pump Bands BandFacts Request RequestFacts Report.
Local Open Scope string_scope.

Lemma toFixed_eval (d : nat) (x : R) (z : Z) :
  0 <= x < 1e21 ->
  IZR z <= x * 10 ^ d + / 2 < IZR z + 1 ->
  toFixed d (Fin x) = Fin (IZR z / 10 ^ d).
Proof.
  intros [Hx0 Hx1] Hz. unfold toFixed.
  rewrite Rabs_right by lra.
  destruct (Rle_dec 1e21 x); [lra |].
  destruct (Rlt_dec x 0); [lra |].
  unfold round_half_up.
  rewrite <- (Int_part_spec (x * 10 ^ d + / 2) z) by lra.
  reflexivity.
Qed.

Lemma div_pos_zero (x z : R) :
  0 < x -> z = 0 -> div (Fin x) (Fin z) = PosInf.
Proof.
  intros Hx ->. simpl.
  destruct (Req_dec_T 0 0) as [_ | H]; [| contradiction H; reflexivity].
  unfold signed_inf. destruct (Rlt_dec 0 x); [reflexivity | contradiction].
Qed.

Lemma viscous_at_infinity :
  CQ (calculateViscousCorrection PosInf) = Fin 1 /\
  CH (calculateViscousCorrection PosInf) = Fin 1.004 /\
  CE (calculateViscousCorrection PosInf) = Fin 1.016.
Proof.
  unfold calculateViscousCorrection. cbv zeta. cbn [CQ CH CE].
  unfold Math_pow. case_dec; try lra.
  rewrite !neg_Fin. cbn [mul]. unfold signed_inf. case_dec; try lra.
  cbn [Math_exp]. rewrite !sub_Fin.
  repeat split; f_equal; lra.
Qed.

(** X7: a viscosity of 0 passes the validation.  With flow, head, suction
    type and stage count positive the Reynolds number is then Infinity, and
    the correction factors reported are their asymptotes rounded to two
    digits: cq = 1, ch = 1 and ce = 1.02. *)
Theorem zero_viscosity (payload : json) (N NPSHA SG : number)
    (q h s k : R) :
  reads payload N (Fin q) (Fin h) NPSHA (Fin s) SG (Fin k) (Fin 0) ->
  0 < q -> 0 < h -> 0 < s -> 0 < k ->
  exists result,
    handler (post payload) = mkResponse 200 headers (ResultBody result) /\
    reynolds result = PosInf /\
    cq result = Fin 1 /\
    ch result = Fin 1 /\
    ce result = Fin 1.02.
Proof.
  intros Hreads Hq Hh Hs Hk.
  destruct (handler_accepts _ _ _ _ _ _ _ _ _ Hreads) as (result & Hres & Hh').
  exists result. split; [exact Hh' |].
  destruct (sizing_fields _ _ _ _ _ _ _ _ _ Hres)
    as (_ & _ & _ & _ & _ & Hre & Hcq & Hch & Hce & _).
  assert (HRe : Re_of (Fin q) (Fin s) (HeadStage (Fin h) (Fin k)) (Fin 0)
                = PosInf).
  { unfold Re_of, HeadStage.
    assert (Hqs : 0 < q / s / 3600)
      by (apply Rdiv_lt_0_compat; [apply Rdiv_lt_0_compat |]; lra).
    assert (Hhk : 0 < 9.81 * (h / k))
      by (apply Rmult_lt_0_compat; [| apply Rdiv_lt_0_compat]; lra).
    rewrite !div_Fin by lra. rewrite Math_pow_half by exact Hqs.
    rewrite mul_Fin, Math_pow_pos by lra. rewrite !mul_Fin.
    apply div_pos_zero; [| lra].
    apply Rmult_lt_0_compat; [apply sqrt_lt_R0; exact Hqs |].
    unfold Rpower. apply exp_pos. }
  rewrite HRe in Hre, Hcq, Hch, Hce.
  destruct viscous_at_infinity as (Eq & Eh & Ee).
  rewrite Eq in Hcq. rewrite Eh in Hch. rewrite Ee in Hce.
  split; [exact Hre |].
  rewrite Hcq, Hch, Hce.
  rewrite (toFixed_eval 2 1 100), (toFixed_eval 2 1.004 100),
    (toFixed_eval 2 1.016 102) by (simpl; lra).
  repeat split; f_equal; simpl; lra.
Qed.

Lemma zero_viscosity_witness :
  exists result,
    handler (post (payload_of 3000 500 120 6 1 1 1 0))
      = mkResponse 200 headers (ResultBody result) /\
    reynolds result = PosInf /\
    cq result = Fin 1 /\
    ch result = Fin 1 /\
    ce result = Fin 1.02.
Proof.
  apply (zero_viscosity _ 3000 6 1 500 120 1 1); try lra.
  apply reads_payload_of.
Defined.

(** X8: a stage count of 0 passes the validation.  With speed, flow and
    head positive the head per stage is then Infinity, the specific speed is
    0 (classified Very Low) and the baseline efficiency reported is
    -Infinity. *)
Theorem zero_stages (payload : json) (NPSHA SucType SG Viscosity : number)
    (n q h : R) :
  reads payload (Fin n) (Fin q) (Fin h) NPSHA SucType SG (Fin 0) Viscosity ->
  0 < n -> 0 < q -> 0 < h ->
  exists result,
    handler (post payload) = mkResponse 200 headers (ResultBody result) /\
    headstage result = PosInf /\
    ns result = Fin 0 /\
    nstatus result = "Ns1" /\
    efficiency result = NegInf.
Proof.
  intros Hreads Hn Hq Hh.
  destruct (handler_accepts _ _ _ _ _ _ _ _ _ Hreads) as (result & Hres & Hh').
  exists result. split; [exact Hh' |].
  destruct (sizing_fields _ _ _ _ _ _ _ _ _ Hres)
    as (Hns & _ & _ & _ & Hhs & _).
  destruct (sizing_unfold _ _ _ _ _ _ _ _ _ Hres)
    as (_ & _ & _ & _ & _ & _ & Hst & _).
  pose proof (sizing_efficiency _ _ _ _ _ _ _ _ _ Hres) as Heff.
  assert (HHS : HeadStage (Fin h) (Fin 0) = PosInf)
    by (apply div_pos_zero; [exact Hh | reflexivity]).
  assert (HNs : Ns_in (Fin n) (Fin q) (Fin h) (Fin 0) = Fin 0).
  { unfold Ns_in, Ns_of. rewrite HHS.
    assert (Hq' : 0 < q / 3600) by (apply Rdiv_lt_0_compat; lra).
    rewrite div_Fin by lra. rewrite Math_pow_half by exact Hq'.
    rewrite mul_Fin. unfold Math_pow. case_dec; try lra. reflexivity. }
  rewrite HHS in Hhs. rewrite HNs in Hns, Hst.
  split; [exact Hhs |].
  split; [rewrite Hns; apply toFixed_zero |].
  split.
  { rewrite Hst.
    replace (band_of (Fin 0)) with VeryLow
      by (symmetry; apply band_of_Fin; simpl; lra).
    reflexivity. }
  rewrite Heff. unfold Eff_in. rewrite HNs. unfold Eff_of. cbv zeta.
  assert (Hqn : 0 < q * 4.402867 / n) by (apply Rdiv_lt_0_compat; lra).
  rewrite !mul_Fin. rewrite (div_Fin (q * 4.402867)) by lra.
  rewrite Math_pow_pos by lra.
  rewrite (div_pos_zero 2286 (0 * 51.66)) by lra.
  cbn [Math_log10]. unfold Math_pow. case_dec; try lra.
  cbn [mul]. unfold signed_inf. case_dec; try lra.
  rewrite (sub_Fin 0 1). cbv iota beta.
  rewrite sub_Fin. cbn [sub neg add mul toFixed].
  unfold signed_inf. case_dec; try lra. reflexivity.
Qed.

Lemma zero_stages_witness :
  exists result,
    handler (post (payload_of 3000 500 120 6 1 1 0 1))
      = mkResponse 200 headers (ResultBody result) /\
    headstage result = PosInf /\
    ns result = Fin 0 /\
    nstatus result = "Ns1" /\
    efficiency result = NegInf.
Proof.
  apply (zero_stages _ 6 1 1 1 3000 500 120); try lra.
  apply reads_payload_of.
Defined.

End Edges.

(** ** Shape of the performance curve *)

Module CurveShape.
Import JS JSFacts Pump Bands BandFacts Request RequestFacts.
Local Open Scope string_scope.

(** The five sequences without the index bookkeeping of the source. *)
Lemma curves_as_maps (Q TDHm Eff NPSHA SG : number)
      (hc ec nc : Coefficients) :
  let pd := performance_curves Q TDHm Eff NPSHA SG hc ec nc in
  let percents := [Fin 0; Fin 25; Fin 50; Fin 75; Fin 100; Fin 130] in
  let head p := (lagrangianInterpolation p hc * (TDHm / 100))%js in
  let eff p :=
    Math_max 0 (Math_min 100 (lagrangianInterpolation p ec * Eff)%js) in
  flowPercentages pd = percents /\
  flowPoints pd = map (fun p => (p * Q / 100)%js) percents /\
  headPoints pd = map head percents /\
  efficiencyPoints pd = map eff percents /\
  npshPoints pd
    = map (fun p =>
             Math_max 0 (lagrangianInterpolation p nc * (NPSHA / 100))%js)
          percents /\
  powerPoints pd
    = map (fun p =>
             if (p * Q / 100 === 0)%js
             then (0.9 * ((Fin 25 * Q / 100 * head (Fin 25) * SG)
                          / power_divisor (eff (Fin 25))))%js
             else ((p * Q / 100 * head p * SG) / power_divisor (eff p))%js)
          percents.
Proof. repeat split; reflexivity. Qed.

Lemma band_rows (b : Band) :
  exists ah bh ch dh eh fh be ce de ee fe an bn cn dn en fn : R,
    lookup (band_key b) curve_head = Some (co ah bh ch dh eh fh) /\
    lookup (band_key b) curve_efficiency = Some (co 0 be ce de ee fe) /\
    lookup (band_key b) curve_npsh = Some (co an bn cn dn en fn) /\
    120.8 <= ah <= 380.
Proof.
  destruct b; simpl; do 17 eexists;
    (split; [reflexivity |]); (split; [reflexivity |]);
    (split; [reflexivity |]); lra.
Qed.

Lemma generatePerformanceData_rows
      (Q TDHm Eff NPSHA SG : number) (b : Band) :
  exists ah bh ch dh eh fh be ce de ee fe an bn cn dn en fn : R,
    generatePerformanceData Q TDHm Eff NPSHA (band_key b) SG
    = Some (performance_curves Q TDHm Eff NPSHA SG
              (co ah bh ch dh eh fh) (co 0 be ce de ee fe)
              (co an bn cn dn en fn)) /\
    120.8 <= ah <= 380.
Proof.
  destruct (band_rows b)
    as (ah & bh & ch & dh & eh & fh & be & ce & de & ee & fe
        & an & bn & cn & dn & en & fn & Hh & He & Hn & Hah).
  exists ah, bh, ch, dh, eh, fh, be, ce, de, ee, fe, an, bn, cn, dn, en, fn.
  split; [| exact Hah].
  unfold generatePerformanceData. rewrite Hh, He, Hn. reflexivity.
Qed.

Lemma clamp_Fin (x : R) :
  exists r : R,
    Math_max (Fin 0) (Math_min (Fin 100) (Fin x)) = Fin r /\ 0 <= r <= 100.
Proof.
  unfold Math_min, Math_max, lt. case_dec; eexists;
    (split; [reflexivity |]); lra.
Qed.

Lemma clamp_range (x : number) :
  Math_max (Fin 0) (Math_min (Fin 100) x) = NaN \/
  exists r : R,
    Math_max (Fin 0) (Math_min (Fin 100) x) = Fin r /\ 0 <= r <= 100.
Proof.
  destruct x as [x | | |].
  - right. apply clamp_Fin.
  - right. exists 100. unfold Math_min, Math_max, lt. case_dec; try lra.
    split; [reflexivity | lra].
  - right. exists 0. unfold Math_min, Math_max, lt. case_dec; try lra.
    split; [reflexivity | lra].
  - left. reflexivity.
Qed.



Lemma floor_zero_range (x : number) :
  Math_max (Fin 0) x = NaN \/ Math_max (Fin 0) x = PosInf \/
  exists r : R, Math_max (Fin 0) x = Fin r /\ 0 <= r.
Proof.
  destruct x as [x | | |]; unfold Math_max, lt; case_dec; auto;
    right; right; eexists; (split; [reflexivity |]); lra.
Qed.

(** X10: whatever the arguments and the coefficient rows, every efficiency
    point of the curve is NaN or a number in [0, 100], and every NPSH point
    is NaN, Infinity or a number that is not negative. *)
Theorem curve_points_clamped (Q TDHm Eff NPSHA SG : number)
    (hc ec nc : Coefficients) :
  let pd := performance_curves Q TDHm Eff NPSHA SG hc ec nc in
  Forall (fun x => x = NaN \/ exists r : R, x = Fin r /\ 0 <= r <= 100)
         (efficiencyPoints pd) /\
  Forall (fun x => x = NaN \/ x = PosInf \/
                   exists r : R, x = Fin r /\ 0 <= r)
         (npshPoints pd).
Proof.
  intros pd.
  destruct (curves_as_maps Q TDHm Eff NPSHA SG hc ec nc)
    as (_ & _ & _ & He & Hn & _).
  fold pd in He, Hn. rewrite He, Hn.
  split; apply Forall_map, Forall_forall; intros p _.
  - apply clamp_range.
  - apply floor_zero_range.
Qed.


(** X12: in every band, for a finite head h and a finite baseline
    efficiency, the head at zero flow is a fixed multiple of h between
    1.208 and 3.8 (the first coefficient of the band's head row over 100),
    and the efficiency at zero flow is 0. *)
Theorem curve_at_zero_flow (b : Band) (h e : R) (Q NPSHA SG : number) :
  exists pd (a : R),
    generatePerformanceData Q (Fin h) (Fin e) NPSHA (band_key b) SG
      = Some pd /\
    at_index (headPoints pd) 0 = Fin (a * (h / 100)) /\
    120.8 <= a <= 380 /\
    at_index (efficiencyPoints pd) 0 = Fin 0.
Proof.
  destruct (generatePerformanceData_rows Q (Fin h) (Fin e) NPSHA SG b)
    as (ah & bh & ch & dh & eh & fh & be & ce & de & ee & fe
        & an & bn & cn & dn & en & fn & Hpd & Hah).
  eexists. exists ah. split; [exact Hpd |].
  rewrite Curve.headPoints_at, Curve.efficiencyPoints_at by lia.
  change (at_index (flowPercentages _) 0) with (Fin 0).
  rewrite !Curve.lagrangianInterpolation_Fin, (div_Fin h 100) by lra.
  rewrite !mul_Fin.
  split; [f_equal; simpl; lra |]. split; [exact Hah |].
  apply clamp_negative; [lra |]. simpl. lra.
Qed.


(** X20: at the rated flow (the 100% point) the curve reproduces the duty
    point in every band: the head, efficiency and NPSH polynomials evaluate
    to 100 within 0.0001 there, so the head point is the total head, the
    efficiency point is the baseline efficiency in percent (clamped) and
    the NPSH point is NPSHA (floored at 0), each within one part in a
    million. *)
Theorem curve_at_rated_flow (b : Band) (h e a : R) (Q SG : number) :
  exists pd (ch ce cn : R),
    generatePerformanceData Q (Fin h) (Fin e) (Fin a) (band_key b) SG
      = Some pd /\
    at_index (headPoints pd) 4 = Fin (ch * (h / 100)) /\
    at_index (efficiencyPoints pd) 4
      = Math_max (Fin 0) (Math_min (Fin 100) (Fin (ce * e))) /\
    at_index (npshPoints pd) 4 = Math_max (Fin 0) (Fin (cn * (a / 100))) /\
    99.9999 <= ch <= 100.0001 /\
    99.9999 <= ce <= 100.0001 /\
    99.9999 <= cn <= 100.0001.
Proof.
  assert (Hnpsh : forall (hc ec nc : Coefficients),
            at_index (npshPoints
                        (performance_curves Q (Fin h) (Fin e) (Fin a) SG
                                            hc ec nc)) 4
            = Math_max (Fin 0)
                (lagrangianInterpolation (Fin 100) nc * (Fin a / 100))%js)
    by reflexivity.
  destruct b; unfold generatePerformanceData; simpl lookup; cbv iota;
    eexists; do 3 eexists; (split; [reflexivity |]);
    rewrite Hnpsh, Curve.headPoints_at, Curve.efficiencyPoints_at by lia;
    change (at_index (flowPercentages _) 4) with (Fin 100);
    rewrite !Curve.lagrangianInterpolation_Fin, !(div_Fin _ 100) by lra;
    rewrite !mul_Fin;
    (split; [reflexivity |]); (split; [reflexivity |]);
    (split; [reflexivity |]); simpl pow; lra.
Qed.

End CurveShape.

(** ** Similarity parameters and sizing *)

Module Hydraulics.
Import JS JSFacts Pump Bands BandFacts Request RequestFacts Report.
Local Open Scope string_scope.

Lemma Rpower_pos (x y : R) : 0 < Rpower x y.
Proof. unfold Rpower. apply exp_pos. Qed.

Lemma Rpower_inv (x c : R) : 0 < x -> Rpower (/ x) c = / Rpower x c.
Proof.
  intros Hx. unfold Rpower. rewrite ln_Rinv by exact Hx.
  replace (c * - ln x) with (- (c * ln x)) by ring. apply exp_Ropp.
Qed.

Lemma Rpower_div (x y c : R) :
  0 < x -> 0 < y -> Rpower (x / y) c = Rpower x c / Rpower y c.
Proof.
  intros Hx Hy. unfold Rdiv.
  rewrite <- Rpower_mult_distr by (try apply Rinv_0_lt_compat; assumption).
  rewrite Rpower_inv by exact Hy. reflexivity.
Qed.

(** X14: the specific speed grows with the stage count as its power 3/4:
    for speed, flow and head positive, Ns with k stages is Ns with one stage
    times k^0.75, so it is strictly greater with more stages. *)
Theorem Ns_scales_with_stages (n q h k : R) :
  0 < n -> 0 < q -> 0 < h -> 0 < k ->
  exists ns1 : R,
    Ns_in (Fin n) (Fin q) (Fin h) (Fin 1) = Fin ns1 /\
    0 < ns1 /\
    Ns_in (Fin n) (Fin q) (Fin h) (Fin k) = Fin (ns1 * Rpower k 0.75) /\
    (1 < k -> ns1 < ns1 * Rpower k 0.75).
Proof.
  intros Hn Hq Hh Hk. rewrite !Ns_in_pos by lra.
  assert (Hs : 0 < sqrt (q / 3600))
    by (apply sqrt_lt_R0; apply Rdiv_lt_0_compat; lra).
  pose proof (Rpower_pos (h / 1) 0.75) as Hp1.
  pose proof (Rpower_pos h 0.75) as Hph.
  pose proof (Rpower_pos k 0.75) as Hpk.
  eexists. split; [reflexivity |].
  assert (Hns : 0 < n * sqrt (q / 3600) / Rpower (h / 1) 0.75).
  { apply Rdiv_lt_0_compat; [apply Rmult_lt_0_compat |]; assumption. }
  split; [exact Hns |]. split.
  - f_equal. rewrite !Rpower_div by lra. rewrite Rpower_1_l.
    field. lra.
  - intros Hk1.
    assert (Hgt : 1 < Rpower k 0.75).
    { rewrite <- (Rpower_1_l 0.75). apply Rlt_Rpower_l; lra. }
    nra.
Qed.

Lemma Ns_scales_with_stages_witness :
  exists ns1 : R,
    Ns_in 3000 500 120 1 = Fin ns1 /\
    0 < ns1 /\
    Ns_in 3000 500 120 4 = Fin (ns1 * Rpower 4 0.75) /\
    (1 < 4 -> ns1 < ns1 * Rpower 4 0.75).
Proof. apply (Ns_scales_with_stages 3000 500 120 4); lra. Defined.



(** X16: a double-suction pump (suctype 2) has the suction specific speed
    of the single-suction pump (suctype 1) divided by sqrt 2, all else
    equal, for flow and NPSHA positive. *)
Theorem double_suction_Nss (n q a : R) :
  0 < q -> 0 < a ->
  exists s1 : R,
    Nss_of (Fin n) (Fin q) (Fin 1) (Fin a) = Fin s1 /\
    Nss_of (Fin n) (Fin q) (Fin 2) (Fin a) = Fin (s1 / sqrt 2).
Proof.
  intros Hq Ha. unfold Nss_of.
  assert (H1 : 0 < q / 1 / 3600)
    by (apply Rdiv_lt_0_compat; [apply Rdiv_lt_0_compat |]; lra).
  assert (H2 : 0 < q / 2 / 3600)
    by (apply Rdiv_lt_0_compat; [apply Rdiv_lt_0_compat |]; lra).
  rewrite !div_Fin by lra. rewrite !Math_pow_half by assumption.
  rewrite Math_pow_pos by lra. rewrite !mul_Fin.
  rewrite !div_Fin by apply Rpower_nonzero_any.
  eexists. split; [reflexivity |]. f_equal.
  replace (q / 2 / 3600) with (q / 1 / 3600 / 2) by (field; lra).
  rewrite (sqrt_div_alt (q / 1 / 3600) 2) by lra.
  assert (Hs2 : 0 < sqrt 2) by (apply sqrt_lt_R0; lra).
  pose proof (Rpower_pos a 0.75). field. split; lra.
Qed.

Lemma double_suction_Nss_witness :
  exists s1 : R,
    Nss_of 3000 500 1 6 = Fin s1 /\
    Nss_of 3000 500 2 6 = Fin (s1 / sqrt 2).
Proof. apply (double_suction_Nss 3000 500 6); lra. Defined.

Lemma Phi_of_pos (u : R) :
  0 < u ->
  Phi_of (Fin u)
  = Fin (0.4 / (if Rlt_dec 1 u then sqrt u else Rpower u 0.25)).
Proof.
  intros Hu. unfold Phi_of, gt, lt.
  destruct (Rlt_dec 1 u).
  - rewrite Math_pow_half by exact Hu.
    rewrite div_Fin; [reflexivity |].
    intros H0. apply sqrt_eq_0 in H0; lra.
  - rewrite Math_pow_pos by lra.
    rewrite div_Fin by apply Rpower_nonzero_any. reflexivity.
Qed.

(** X17: over positive unitless specific speeds the flow coefficient is
    positive and does not increase with Uns; it is at least 0.4 up to
    Uns = 1 and at most 0.4 beyond, and the two branch formulas give the
    same value 0.4 at Uns = 1, so the change of formula is not a jump. *)
Theorem flow_coefficient_antitone (u1 u2 : R) :
  0 < u1 <= u2 ->
  exists p1 p2 : R,
    Phi_of (Fin u1) = Fin p1 /\
    Phi_of (Fin u2) = Fin p2 /\
    0 < p2 <= p1 /\
    (u1 <= 1 -> 0.4 <= p1) /\
    (1 <= u2 -> p2 <= 0.4) /\
    (0.4 / Math_pow 1 0.5)%js = Fin 0.4 /\
    (0.4 / Math_pow 1 0.25)%js = Fin 0.4.
Proof.
  intros [H1 H12]. rewrite !Phi_of_pos by lra.
  set (d := fun u : R => if Rlt_dec 1 u then sqrt u else Rpower u 0.25).
  assert (Hone : Rpower 1 0.25 = 1) by apply Rpower_1_l.
  assert (Hlow : forall u, 0 < u <= 1 -> 0 < d u <= 1).
  { intros u [Hu0 Hu1]. unfold d. destruct (Rlt_dec 1 u); [lra |].
    split; [apply Rpower_pos |].
    rewrite <- Hone. apply Rle_Rpower_l; lra. }
  assert (Hhigh : forall u, 1 <= u -> 1 <= d u).
  { intros u Hu. unfold d. destruct (Rlt_dec 1 u).
    - rewrite <- sqrt_1. apply sqrt_le_1_alt. lra.
    - replace u with 1 by lra. lra. }
  assert (Hmono : 0 < d u1 <= d u2).
  { destruct (Rle_dec u2 1) as [Hu2 | Hu2].
    - split; [apply Hlow; lra |]. unfold d.
      destruct (Rlt_dec 1 u1); [lra |]. destruct (Rlt_dec 1 u2); [lra |].
      apply Rle_Rpower_l; lra.
    - destruct (Rle_dec u1 1) as [Hu1 | Hu1].
      + pose proof (Hlow u1 (conj H1 Hu1)). pose proof (Hhigh u2). lra.
      + pose proof (Hhigh u1). split; [lra |]. unfold d.
        destruct (Rlt_dec 1 u1); [| lra]. destruct (Rlt_dec 1 u2); [| lra].
        apply sqrt_le_1_alt. lra. }
  fold (d u1) (d u2).
  assert (Hdiv : forall x y, 0 < x <= y -> 0 < 0.4 / y <= 0.4 / x).
  { intros x y [Hx Hxy]. split.
    - apply Rdiv_lt_0_compat; lra.
    - unfold Rdiv. apply Rmult_le_compat_l; [lra |].
      apply Rinv_le_contravar; assumption. }
  exists (0.4 / d u1), (0.4 / d u2).
  split; [reflexivity |]. split; [reflexivity |].
  split; [apply Hdiv; exact Hmono |]. split; [| split; [| split]].
  - intros Hu1. destruct (Hlow u1 (conj H1 Hu1)) as [Hd0 Hd1].
    destruct (Hdiv (d u1) 1 (conj Hd0 Hd1)) as [_ Hle]. lra.
  - intros Hu2. pose proof (Hhigh u2 Hu2) as Hd.
    assert (H01 : 0 < 1 <= d u2) by lra.
    destruct (Hdiv 1 (d u2) H01) as [_ Hle]. lra.
  - rewrite Math_pow_half by lra. rewrite sqrt_1, div_Fin by lra.
    f_equal. lra.
  - rewrite Math_pow_pos by lra. rewrite Hone, div_Fin by lra.
    f_equal. lra.
Qed.

Lemma flow_coefficient_antitone_witness :
  exists p1 p2 : R,
    Phi_of (Fin 0.5) = Fin p1 /\
    Phi_of (Fin 2) = Fin p2 /\
    0 < p2 <= p1 /\
    (0.5 <= 1 -> 0.4 <= p1) /\
    (1 <= 2 -> p2 <= 0.4) /\
    (0.4 / Math_pow 1 0.5)%js = Fin 0.4 /\
    (0.4 / Math_pow 1 0.25)%js = Fin 0.4.
Proof. apply (flow_coefficient_antitone 0.5 2). lra. Defined.

(** X18: for speed, flow, head and stage count positive, the tip speed
    reported is sqrt(9.81 * headPerStage / Phi) rounded to two digits: the
    angular velocity cancels between the impeller radius and the tip
    speed, and the impeller diameter is 2000 times that speed over the
    angular velocity. *)
Theorem tip_speed_identity (payload : json)
    (NPSHA SucType SG Viscosity : number) (n q h k : R) :
  reads payload (Fin n) (Fin q) (Fin h) NPSHA SucType SG (Fin k) Viscosity ->
  0 < n -> 0 < q -> 0 < h -> 0 < k ->
  exists (result : Result) (phi : R),
    handler (post payload) = mkResponse 200 headers (ResultBody result) /\
    Phi_of (Uns_of (Ns_in (Fin n) (Fin q) (Fin h) (Fin k))) = Fin phi /\
    0 < phi /\
    tipspeed result = toFixed 2 (Fin (sqrt (9.81 * (h / k) / phi))) /\
    impdia result
      = toFixed 2 (Fin (2000 * sqrt (9.81 * (h / k) / phi) / (PI / 30 * n))).
Proof.
  intros Hreads Hn Hq Hh Hk.
  destruct (handler_accepts _ _ _ _ _ _ _ _ _ Hreads) as (result & Hres & Hh').
  destruct (sizing_fields _ _ _ _ _ _ _ _ _ Hres)
    as (_ & _ & Htip & Himp & _).
  assert (Hns : 0 < n * sqrt (q / 3600) / Rpower (h / k) 0.75).
  { apply Rdiv_lt_0_compat; [apply Rmult_lt_0_compat |];
      [exact Hn | | apply Rpower_pos].
    apply sqrt_lt_R0. apply Rdiv_lt_0_compat; lra. }
  set (ns := n * sqrt (q / 3600) / Rpower (h / k) 0.75) in *.
  assert (Hu : 0 < ns / 52.919) by (apply Rdiv_lt_0_compat; lra).
  assert (HPhi : exists phi : R,
            Phi_of (Uns_of (Ns_in (Fin n) (Fin q) (Fin h) (Fin k))) = Fin phi
            /\ 0 < phi).
  { rewrite Ns_in_pos by lra. fold ns. unfold Uns_of.
    rewrite div_Fin by lra. rewrite Phi_of_pos by exact Hu.
    eexists. split; [reflexivity |].
    apply Rdiv_lt_0_compat; [lra |].
    destruct (Rlt_dec 1 (ns / 52.919));
      [apply sqrt_lt_R0; exact Hu | apply Rpower_pos]. }
  destruct HPhi as (phi & HPhi & Hphi).
  exists result, phi. split; [exact Hh' |]. split; [exact HPhi |].
  split; [exact Hphi |].
  pose proof PI_RGT_0 as Hpi.
  assert (Hw : 0 < PI / 30 * n).
  { apply Rmult_lt_0_compat; [apply Rdiv_lt_0_compat |]; lra. }
  assert (Hx : 0 < 9.81 * (h / k) / phi).
  { apply Rdiv_lt_0_compat; [apply Rmult_lt_0_compat |]; try lra.
    apply Rdiv_lt_0_compat; lra. }
  assert (Himpdia : ImpDia_in (Fin n) (Fin q) (Fin h) (Fin k)
            = Fin (1 / (PI / 30 * n) * sqrt (9.81 * (h / k) / phi)
                   * 2 * 1000)).
  { unfold ImpDia_in. cbv zeta.
    change (Ns_of (Fin n) (Fin q) (HeadStage (Fin h) (Fin k)))
      with (Ns_in (Fin n) (Fin q) (Fin h) (Fin k)).
    rewrite HPhi. unfold AngVel, HeadStage, Math_PI.
    rewrite !div_Fin by lra. rewrite !mul_Fin.
    rewrite !div_Fin by lra.
    unfold Math_sqrt. destruct (Rlt_dec (9.81 * (h / k) / phi) 0); [lra |].
    rewrite !mul_Fin. reflexivity. }
  rewrite Himpdia in Htip, Himp. rewrite Htip, Himp.
  unfold AngVel, Math_PI. rewrite !div_Fin by lra. rewrite !mul_Fin.
  rewrite ?div_Fin by lra. rewrite ?mul_Fin.
  split; do 2 f_equal; field; lra.
Qed.

Lemma tip_speed_identity_witness :
  exists (result : Result) (phi : R),
    handler (post (payload_of 3000 500 120 6 1 1 1 1))
      = mkResponse 200 headers (ResultBody result) /\
    Phi_of (Uns_of (Ns_in 3000 500 120 1)) = Fin phi /\
    0 < phi /\
    tipspeed result = toFixed 2 (Fin (sqrt (9.81 * (120 / 1) / phi))) /\
    impdia result
      = toFixed 2
          (Fin (2000 * sqrt (9.81 * (120 / 1) / phi) / (PI / 30 * 3000))).
Proof.
  apply (tip_speed_identity _ 6 1 1 1 3000 500 120 1); try lra.
  apply reads_payload_of.
Defined.

End Hydraulics.

(** ** Range of the alternate efficiency *)

Module Estimate.
Import JS JSFacts Pump Bands BandFacts Request RequestFacts.
Local Open Scope string_scope.

Lemma toFixed_percent (x : R) :
  0 <= x <= 100 ->
  exists y : R, toFixed 2 (Fin x) = Fin y /\ 0 <= y <= 100.
Proof.
  intros [H0 H1]. unfold toFixed.
  rewrite Rabs_right by lra.
  destruct (Rle_dec 1e21 x); [lra |].
  destruct (Rlt_dec x 0); [lra |].
  eexists. split; [reflexivity |]. unfold round_half_up.
  destruct (base_Int_part (x * 10 ^ 2 + / 2)) as [Hle Hgt].
  set (z := Int_part (x * 10 ^ 2 + / 2)) in *.
  simpl pow in *.
  assert (Hz0 : (0 <= z)%Z).
  { assert (Hlt : IZR (-1) < IZR z) by lra. apply lt_IZR in Hlt. lia. }
  assert (Hz1 : (z <= 10000)%Z).
  { assert (Hlt : IZR z < IZR 10001) by lra. apply lt_IZR in Hlt. lia. }
  apply IZR_le in Hz0, Hz1. lra.
Qed.

(** X19: whatever Ns, flow and baseline efficiency it is given, the new
    efficiency of the alternate estimate, and the value reported for it
    after rounding, is NaN or a number in [0, 100]; unlike the baseline
    efficiency it is never negative and never exceeds 100. *)
Theorem alternate_efficiency_range
    (Ns Q TDHm ImpDia NPSHA N SG originalEff : number) :
  let reported :=
    np_efficiency
      (calculateNewPumpPerformance Ns Q TDHm ImpDia NPSHA N SG originalEff) in
  (newEfficiencyPercent Ns Q originalEff = NaN \/
   exists r : R,
     newEfficiencyPercent Ns Q originalEff = Fin r /\ 0 <= r <= 100) /\
  (reported = NaN \/ exists y : R, reported = Fin y /\ 0 <= y <= 100).
Proof.
  intros reported.
  assert (Hin : newEfficiencyPercent Ns Q originalEff = NaN \/
                exists r : R,
                  newEfficiencyPercent Ns Q originalEff = Fin r /\
                  0 <= r <= 100).
  { unfold newEfficiencyPercent. cbv zeta. apply CurveShape.clamp_range. }
  split; [exact Hin |].
  unfold reported, calculateNewPumpPerformance. cbv zeta.
  cbn [np_efficiency].
  destruct Hin as [-> | (r & -> & Hr)].
  - left. reflexivity.
  - right. apply toFixed_percent. exact Hr.
Qed.




End Estimate.
